(** * Intelligent LLM Router: the data model and its checked properties

    The repository holds two Python modules:
    - [src/models/schemas.py]: the Pydantic models of the API
      (requests, routing decisions, feedback, candidates, cache entries);
    - [src/models/database.py]: the SQLAlchemy tables.

    This development embeds both shallowly.  A Pydantic class becomes a
    record together with its validating constructor; a SQLAlchemy table
    becomes the record of a row together with the row an INSERT produces
    from the column defaults.  Python [int] is [Z], Python [float] is a
    binary64 value of [spec_float], [Optional[T]] is [option T], and a
    keyword argument that the caller may leave out is a [kwarg]. *)

From Stdlib Require Import ZArith Floats.SpecFloat.
From stdpp Require Import gmap strings list fin_maps.

Local Open Scope Z_scope.

(* ===================================================================== *)
(** ** Python floats *)
(* ===================================================================== *)

Module Float64.

(** A Python [float] is an IEEE 754 binary64 number: 53 bits of
    precision, infinities at exponent 1024. *)
Definition float : Type := spec_float.
Definition prec : Z := 53.
Definition emax : Z := 1024.

Definition of_Z (z : Z) : float := binary_normalize prec emax z 0 false.

Definition add : float -> float -> float := SFadd prec emax.
Definition sub : float -> float -> float := SFsub prec emax.
Definition mul : float -> float -> float := SFmul prec emax.
Definition div : float -> float -> float := SFdiv prec emax.

(** Python's [x < y] and [x <= y]: false as soon as one side is NaN. *)
Definition lt (x y : float) : bool := SFltb x y.
Definition le (x y : float) : bool := SFleb x y.

(** The literal [n/d] written in decimal (0.5, 0.2, ...): the double
    nearest to the quotient. *)
Definition ratio (n d : Z) : float := div (of_Z n) (of_Z d).

Definition zero : float := S754_zero false.
Definition one : float := Eval cbv in of_Z 1.
Definition half : float := Eval cbv in ratio 1 2.

(** Not a number: the one value every comparison with which is false. *)
Definition is_nan (x : float) : bool :=
  match x with S754_nan => true | _ => false end.

(** The closed unit interval, as Python evaluates [0.0 <= x <= 1.0]. *)
Definition in_unit_interval (x : float) : bool := le zero x && le x one.

(** The values a Python float can take: the well-formed binary64 ones. *)
Definition is_binary64 (x : float) : bool := valid_binary prec emax x.

(** The number a float stands for lies in [0,1]: it is a zero, or the
    positive finite [m * 2^e] with [m * 2^e <= 1], that is [e <= 0] and
    [m <= 2^(-e)]. *)
Definition value_in_unit (x : float) : Prop :=
  match x with
  | S754_zero _ => True
  | S754_finite false m e => e <= 0 /\ Z.pos m <= 2 ^ (- e)
  | _ => False
  end.

End Float64.

Abbreviation float := Float64.float.

(* ===================================================================== *)
(** ** The part of Pydantic the schemas rely on *)
(* ===================================================================== *)

Module pydantic.

(** What a failed validation reports for one field. *)
Inductive ErrorType : Type :=
  | missing
  | greater_than_equal
  | less_than_equal.

Record ErrorDetails : Type := mkError { loc : string; err_type : ErrorType }.

(** The outcome of a constructor call: the model, or [ValidationError]
    carrying the errors of all the fields that failed. *)
Inductive Validated (A : Type) : Type :=
  | Valid (a : A)
  | ValidationError (errors : list ErrorDetails).
Arguments Valid {A} a.
Arguments ValidationError {A} errors.

(** Fields are validated independently and the errors are collected. *)
Definition ap {A B} (f : Validated (A -> B)) (x : Validated A) : Validated B :=
  match f, x with
  | Valid g, Valid a => Valid (g a)
  | Valid _, ValidationError e => ValidationError e
  | ValidationError e, Valid _ => ValidationError e
  | ValidationError e1, ValidationError e2 => ValidationError (e1 ++ e2)
  end.

(** A keyword argument of a constructor call: left out, or passed. *)
Inductive kwarg (A : Type) : Type :=
  | Omitted
  | Passed (a : A).
Arguments Omitted {A}.
Arguments Passed {A} a.

(** The value an argument with a default ends up with. *)
Definition value_or {A} (d : A) (a : kwarg A) : A :=
  match a with Omitted => d | Passed v => v end.

(** [Field(default, ge=..., le=...)].  [default = None] stands for the
    ellipsis of a required field. *)
Record FieldInfo (A : Type) : Type := Field {
  default : option A;
  ge : option A;
  le : option A
}.
Arguments Field {A} default ge le.
Arguments default {A} f.
Arguments ge {A} f.
Arguments le {A} f.

(** A field declared by a bare annotation ([name: T]) is required and
    unconstrained; [name: T = d] has the default [d]. *)
Definition required {A} : FieldInfo A := Field None None None.
Definition with_default {A} (d : A) : FieldInfo A := Field (Some d) None None.

(** Python's rich comparison [x <= y] on the numeric types. *)
Class PyOrd (A : Type) : Type := py_le : A -> A -> bool.
#[export] Instance PyOrd_int : PyOrd Z := Z.leb.
#[export] Instance PyOrd_float : PyOrd float := Float64.le.

(** The bounds check of a constrained number: the value must satisfy
    [v <= le], then [v >= ge]; the first failure is reported. *)
Definition number_size_validator {A} `{PyOrd A} (fi : FieldInfo A) (v : A)
  : option ErrorType :=
  match le fi with
  | Some hi =>
      if py_le v hi then
        match ge fi with
        | Some lo => if py_le lo v then None else Some greater_than_equal
        | None => None
        end
      else Some less_than_equal
  | None =>
      match ge fi with
      | Some lo => if py_le lo v then None else Some greater_than_equal
      | None => None
      end
  end.

(** An omitted argument takes the default when there is one (the default
    itself is not validated) and is an error otherwise. *)
Definition from_default {A} (name : string) (fi : FieldInfo A) : Validated A :=
  match default fi with
  | Some d => Valid d
  | None => ValidationError [mkError name missing]
  end.

(** A field without numeric constraints. *)
Definition validate_field {A} (name : string) (fi : FieldInfo A) (a : kwarg A)
  : Validated A :=
  match a with
  | Omitted => from_default name fi
  | Passed v => Valid v
  end.

(** A numeric field, with its bounds. *)
Definition validate_number {A} `{PyOrd A} (name : string) (fi : FieldInfo A)
  (a : kwarg A) : Validated A :=
  match a with
  | Omitted => from_default name fi
  | Passed v =>
      match number_size_validator fi v with
      | None => Valid v
      | Some e => ValidationError [mkError name e]
      end
  end.

(** The errors a constructor call reports; none when it succeeds. *)
Definition errors_of {A} (v : Validated A) : list ErrorDetails :=
  match v with Valid _ => [] | ValidationError errs => errs end.

Definition passed {A} (a : kwarg A) : bool :=
  match a with Omitted => false | Passed _ => true end.

(** The name of a required field, when the call leaves it out. *)
Definition if_omitted {A} (name : string) (a : kwarg A) : list string :=
  if passed a then [] else [name].

(** The errors reported for required fields that were left out. *)
Definition missing_fields (names : list string) : list ErrorDetails :=
  (fun n => mkError n missing) <$> names.

End pydantic.

Export pydantic.

Notation "f <*> x" := (ap f x) (at level 61, left associativity).

(* ===================================================================== *)
(** ** schemas.py *)
(* ===================================================================== *)

Module schemas.

(** [datetime]: microseconds since the epoch. *)
Definition datetime : Type := Z.

(** [typing.Any], as far as JSON-like values go; a [Dict[str, Any]] keeps
    its insertion order. *)
#[warnings="-register-all"]
Inductive Any : Type :=
  | ANone
  | ABool (b : bool)
  | AInt (z : Z)
  | AFloat (f : float)
  | AStr (s : string)
  | AList (l : list Any)
  | ADict (d : list (string * Any)).

Definition Dict : Type := list (string * Any).

(** *** ChatRequest *)

Record ChatRequest : Type := mkChatRequest {
  query : string;
  user_id : string;
  context : option string;
  user_tier : option string
}.

Definition ChatRequest_user_tier : FieldInfo (option string) :=
  Field (Some (Some "free"%string)) None None.

Definition ChatRequest_init
  (query user_id : kwarg string) (context user_tier : kwarg (option string))
  : Validated ChatRequest :=
  Valid mkChatRequest
    <*> validate_field "query" required query
    <*> validate_field "user_id" required user_id
    <*> validate_field "context" (with_default None) context
    <*> validate_field "user_tier" ChatRequest_user_tier user_tier.

(** *** QueryFeatures *)

Record QueryFeatures : Type := mkQueryFeatures {
  token_count : Z;
  query_length : Z;
  word_count : Z;
  sentence_count : Z;
  is_coding : bool;
  is_analytical : bool;
  is_creative : bool;
  has_code_block : bool;
  embedding_id : option string
}.

Definition QueryFeatures_init
  (token_count query_length word_count sentence_count : kwarg Z)
  (is_coding is_analytical is_creative has_code_block : kwarg bool)
  (embedding_id : kwarg (option string)) : Validated QueryFeatures :=
  Valid mkQueryFeatures
    <*> validate_number "token_count" required token_count
    <*> validate_number "query_length" required query_length
    <*> validate_number "word_count" required word_count
    <*> validate_number "sentence_count" required sentence_count
    <*> validate_field "is_coding" required is_coding
    <*> validate_field "is_analytical" required is_analytical
    <*> validate_field "is_creative" required is_creative
    <*> validate_field "has_code_block" required has_code_block
    <*> validate_field "embedding_id" (with_default None) embedding_id.

(** *** RoutingDecision *)

Record RoutingDecision : Type := mkRoutingDecision {
  selected_model : string;
  reason : string;
  confidence : float;
  alternatives : option (list Dict);
  fallback : bool
}.

Definition RoutingDecision_confidence : FieldInfo float :=
  Field None (Some Float64.zero) (Some Float64.one).

Definition RoutingDecision_init
  (selected_model reason : kwarg string) (confidence : kwarg float)
  (alternatives : kwarg (option (list Dict))) (fallback : kwarg bool)
  : Validated RoutingDecision :=
  Valid mkRoutingDecision
    <*> validate_field "selected_model" required selected_model
    <*> validate_field "reason" required reason
    <*> validate_number "confidence" RoutingDecision_confidence confidence
    <*> validate_field "alternatives" (with_default None) alternatives
    <*> validate_field "fallback" (with_default false) fallback.

(** *** FeedbackRequest *)

Record FeedbackRequest : Type := mkFeedbackRequest {
  request_id : string;
  rating : Z;
  comment : option string
}.

Definition FeedbackRequest_rating : FieldInfo Z := Field None (Some 1) (Some 5).

Definition FeedbackRequest_init
  (request_id : kwarg string) (rating : kwarg Z) (comment : kwarg (option string))
  : Validated FeedbackRequest :=
  Valid mkFeedbackRequest
    <*> validate_field "request_id" required request_id
    <*> validate_number "rating" FeedbackRequest_rating rating
    <*> validate_field "comment" (with_default None) comment.

(** *** SimilarQuery *)

Record SimilarQuery : Type := mkSimilarQuery {
  sq_query : string;
  sq_model_used : string;
  success_rate : float;
  avg_latency_ms : float;
  similarity_score : float
}.

Definition SimilarQuery_init
  (query model_used : kwarg string)
  (success_rate avg_latency_ms similarity_score : kwarg float)
  : Validated SimilarQuery :=
  Valid mkSimilarQuery
    <*> validate_field "query" required query
    <*> validate_field "model_used" required model_used
    <*> validate_number "success_rate" required success_rate
    <*> validate_number "avg_latency_ms" required avg_latency_ms
    <*> validate_number "similarity_score" required similarity_score.

(** *** ModelCandidate *)

Record ModelCandidate : Type := mkModelCandidate {
  model_name : string;
  quality_score : float;
  cost_score : float;
  latency_score : float;
  overall_score : float;
  metadata : option Dict
}.

Definition ModelCandidate_init
  (model_name : kwarg string)
  (quality_score cost_score latency_score overall_score : kwarg float)
  (metadata : kwarg (option Dict)) : Validated ModelCandidate :=
  Valid mkModelCandidate
    <*> validate_field "model_name" required model_name
    <*> validate_number "quality_score" required quality_score
    <*> validate_number "cost_score" required cost_score
    <*> validate_number "latency_score" required latency_score
    <*> validate_number "overall_score" required overall_score
    <*> validate_field "metadata" (with_default None) metadata.

(** *** CacheEntry *)

Record CacheEntry : Type := mkCacheEntry {
  query_hash : string;
  response : string;
  model_used : string;
  timestamp : datetime;
  hit_count : Z
}.

Definition CacheEntry_init
  (query_hash response model_used : kwarg string) (timestamp : kwarg datetime)
  (hit_count : kwarg Z) : Validated CacheEntry :=
  Valid mkCacheEntry
    <*> validate_field "query_hash" required query_hash
    <*> validate_field "response" required response
    <*> validate_field "model_used" required model_used
    <*> validate_field "timestamp" required timestamp
    <*> validate_number "hit_count" (with_default 0) hit_count.

End schemas.


(** The remaining models of [schemas.py].  Several of them reuse field
    names of the models above ([response], [model_used], [timestamp],
    ...), so each lives in a module of its own, under the names of the
    source. *)

Module ChatResponse.

Import schemas.

Record t : Type := mk {
  response : string;
  model_used : string;
  latency_ms : float;
  routing_metadata : option Dict
}.

Definition init
  (response model_used : kwarg string) (latency_ms : kwarg float)
  (routing_metadata : kwarg (option Dict)) : Validated t :=
  Valid mk
    <*> validate_field "response" required response
    <*> validate_field "model_used" required model_used
    <*> validate_number "latency_ms" required latency_ms
    <*> validate_field "routing_metadata" (with_default None) routing_metadata.

End ChatResponse.

Module RoutingLog.

Import schemas.

Record t : Type := mk {
  id : option Z;
  query : string;
  user_id : string;
  features : Dict;
  model_used : string;
  latency_ms : float;
  cost_estimate : float;
  success : bool;
  timestamp : datetime
}.

(** [timestamp] has [default_factory=datetime.utcnow]: the factory runs
    when the constructor is called; [utcnow] is what it returns then. *)
Definition init (utcnow : datetime)
  (id : kwarg (option Z)) (query user_id : kwarg string) (features : kwarg Dict)
  (model_used : kwarg string) (latency_ms cost_estimate : kwarg float)
  (success : kwarg bool) (timestamp : kwarg datetime) : Validated t :=
  Valid mk
    <*> validate_field "id" (with_default None) id
    <*> validate_field "query" required query
    <*> validate_field "user_id" required user_id
    <*> validate_field "features" required features
    <*> validate_field "model_used" required model_used
    <*> validate_number "latency_ms" required latency_ms
    <*> validate_number "cost_estimate" required cost_estimate
    <*> validate_field "success" required success
    <*> validate_field "timestamp" (with_default utcnow) timestamp.

End RoutingLog.

Module ComplexityPrediction.

Record t : Type := mk {
  complexity : string;
  domain : string;
  confidence : float
}.

Definition init (complexity domain : kwarg string) (confidence : kwarg float)
  : Validated t :=
  Valid mk
    <*> validate_field "complexity" required complexity
    <*> validate_field "domain" required domain
    <*> validate_number "confidence" required confidence.

End ComplexityPrediction.

Module HealthCheck.

Import schemas.

Record t : Type := mk {
  status : string;
  version : string;
  timestamp : datetime;
  services : list (string * string)
}.

Definition init (status version : kwarg string) (timestamp : kwarg datetime)
  (services : kwarg (list (string * string))) : Validated t :=
  Valid mk
    <*> validate_field "status" required status
    <*> validate_field "version" required version
    <*> validate_field "timestamp" required timestamp
    <*> validate_field "services" required services.

End HealthCheck.

Module MetricsResponse.

Record t : Type := mk {
  total_requests : Z;
  cache_hit_rate : float;
  avg_latency_ms : float;
  model_distribution : list (string * Z);
  error_rate : float
}.

Definition init (total_requests : kwarg Z)
  (cache_hit_rate avg_latency_ms : kwarg float)
  (model_distribution : kwarg (list (string * Z))) (error_rate : kwarg float)
  : Validated t :=
  Valid mk
    <*> validate_number "total_requests" required total_requests
    <*> validate_number "cache_hit_rate" required cache_hit_rate
    <*> validate_number "avg_latency_ms" required avg_latency_ms
    <*> validate_field "model_distribution" required model_distribution
    <*> validate_number "error_rate" required error_rate.

End MetricsResponse.

(* ===================================================================== *)
(** ** database.py *)
(* ===================================================================== *)

Module database.

Import schemas.

(** A row of the table [model_performance]. *)
Record ModelPerformanceDB : Type := mkModelPerformanceDB {
  id : Z;
  model_name : string;
  total_requests : Z;
  success_count : Z;
  total_latency_ms : float;
  total_cost : float;
  avg_rating : option float;
  last_updated : datetime
}.

(** The row an INSERT stores when only [model_name] is set: every other
    column takes its declared default ([default=0], [default=0.0],
    [nullable=True], [default=datetime.utcnow]); the primary key comes
    from the database. *)
Definition ModelPerformanceDB_insert (pk : Z) (name : string) (utcnow : datetime)
  : ModelPerformanceDB :=
  {| id := pk;
     model_name := name;
     total_requests := 0;
     success_count := 0;
     total_latency_ms := Float64.zero;
     total_cost := Float64.zero;
     avg_rating := None;
     last_updated := utcnow |}.

End database.

(* ===================================================================== *)
(** ** The Performance Tracker *)
(* ===================================================================== *)

Module Tracker.

Import database.

(** Modelled from the spec: the repository declares the table
    [ModelPerformanceDB] but holds no code that updates it.  Section 4.2
    of the specification describes the operation: [recordOutcome]
    "increments total_requests, conditionally success_count, adds to
    total_latency_ms/total_cost".  This is that update on one row. *)
Definition recordOutcome_row (latency_ms cost : float) (success : bool)
  (r : ModelPerformanceDB) : ModelPerformanceDB :=
  {| id := id r;
     model_name := model_name r;
     total_requests := total_requests r + 1;
     success_count := if success then success_count r + 1 else success_count r;
     total_latency_ms := Float64.add (total_latency_ms r) latency_ms;
     total_cost := Float64.add (total_cost r) cost;
     avg_rating := avg_rating r;
     last_updated := last_updated r |}.

(** The arguments of one call of [recordOutcome]. *)
Record Call : Type := mkCall {
  call_latency_ms : float;
  call_cost : float;
  call_success : bool
}.

Definition apply_call (r : ModelPerformanceDB) (c : Call) : ModelPerformanceDB :=
  recordOutcome_row (call_latency_ms c) (call_cost c) (call_success c) r.

(** The row after a sequence of calls, first call first. *)
Definition recordOutcomes (calls : list Call) (r : ModelPerformanceDB)
  : ModelPerformanceDB :=
  fold_left apply_call calls r.

(** The rows seen after each call of the sequence, in order. *)
Fixpoint history (calls : list Call) (r : ModelPerformanceDB)
  : list ModelPerformanceDB :=
  match calls with
  | [] => []
  | c :: rest => let r' := apply_call r c in r' :: history rest r'
  end.

(** The counters of a row are consistent. *)
Definition consistent (r : ModelPerformanceDB) : Prop :=
  0 <= success_count r <= total_requests r.

(** Modelled from the spec: the tracker is the store of the rows, keyed
    by [model_name] (section 3: "aggregate, mutable, process-wide, keyed
    by model_name"), with the number of ratings received for each model
    (section 4.2: "tracked separately from total_requests"). *)
Record t : Type := mkTracker {
  rows : gmap string ModelPerformanceDB;
  ratings : gmap string Z;
  clock : schemas.datetime
}.

Definition row_of (tr : t) (name : string) : ModelPerformanceDB :=
  match rows tr !! name with
  | Some r => r
  | None => ModelPerformanceDB_insert (Z.of_nat (size (rows tr)) + 1) name (clock tr)
  end.

(** Modelled from the spec: [recordOutcome(model_name, latency_ms, cost,
    success)] on the store; a model seen for the first time starts from
    the inserted row. *)
Definition recordOutcome (name : string) (latency_ms cost : float) (success : bool)
  (tr : t) : t :=
  {| rows := <[name := recordOutcome_row latency_ms cost success (row_of tr name)]> (rows tr);
     ratings := ratings tr;
     clock := clock tr |}.

(** Modelled from the spec: [recordFeedback(model_name, rating)] "updates
    avg_rating via incremental mean (avg' = avg + (rating - avg) / n,
    with n = count of ratings received ...).  If avg_rating was null,
    initializes it to rating". *)
Definition rate_row (rating n : Z) (r : ModelPerformanceDB) : ModelPerformanceDB :=
  let x := Float64.of_Z rating in
  {| id := id r;
     model_name := model_name r;
     total_requests := total_requests r;
     success_count := success_count r;
     total_latency_ms := total_latency_ms r;
     total_cost := total_cost r;
     avg_rating :=
       Some match avg_rating r with
            | None => x
            | Some avg =>
                Float64.add avg (Float64.div (Float64.sub x avg) (Float64.of_Z n))
            end;
     last_updated := last_updated r |}.

Definition recordFeedback (name : string) (rating : Z) (tr : t) : t :=
  let n := match ratings tr !! name with Some k => k | None => 0 end + 1 in
  {| rows := <[name := rate_row rating n (row_of tr name)]> (rows tr);
     ratings := <[name := n]> (ratings tr);
     clock := clock tr |}.

(** Modelled from the spec: the boundary in front of the tracker
    (section 7 (d): "rating outside [1,5] or unknown request_id -
    rejected at the boundary before reaching the Tracker, never partially
    applied").  [served] maps the identifier of a routed request to the
    model that served it. *)
Inductive FeedbackResult : Type :=
  | FeedbackRecorded
  | FeedbackInvalid (errors : list ErrorDetails)
  | FeedbackUnknownRequest.

Definition submit_feedback (served : gmap string string)
  (request_id : kwarg string) (rating : kwarg Z) (comment : kwarg (option string))
  (tr : t) : FeedbackResult * t :=
  match schemas.FeedbackRequest_init request_id rating comment with
  | ValidationError errs => (FeedbackInvalid errs, tr)
  | Valid fb =>
      match served !! schemas.request_id fb with
      | None => (FeedbackUnknownRequest, tr)
      | Some name => (FeedbackRecorded, recordFeedback name (schemas.rating fb) tr)
      end
  end.

(** Modelled from the spec: [snapshot(model_name)], the read-only view of
    section 4.2: "successRate = success_count/total_requests (0 if
    total_requests = 0 ...); avgLatency = total_latency_ms/total_requests;
    avgRating defaults to a neutral midpoint (e.g., 3.0) when null". *)
Record Snapshot : Type := mkSnapshot {
  successRate : float;
  avgLatency : float;
  avgCost : float;
  avgRating : float
}.

Definition neutral_rating : float := Eval cbv in Float64.of_Z 3.

Definition snapshot (tr : t) (name : string) : Snapshot :=
  let r := row_of tr name in
  let n := Float64.of_Z (total_requests r) in
  {| successRate :=
       if total_requests r =? 0 then Float64.zero
       else Float64.div (Float64.of_Z (success_count r)) n;
     avgLatency := Float64.div (total_latency_ms r) n;
     avgCost := Float64.div (total_cost r) n;
     avgRating := match avg_rating r with Some a => a | None => neutral_rating end |}.

End Tracker.

(* ===================================================================== *)
(** ** The Response Cache *)
(* ===================================================================== *)

Module Cache.

Import schemas.

(** The repository declares [CacheEntry] but holds no cache; the cache
    below follows section 4.3 of the specification.  It maps a
    fingerprint to its entry.  The eviction policy is left open there
    and is not part of this model. *)

(** An entry after one more hit. *)
Definition bump (e : CacheEntry) : CacheEntry :=
  {| query_hash := query_hash e;
     response := response e;
     model_used := model_used e;
     timestamp := timestamp e;
     hit_count := hit_count e + 1 |}.

(** Modelled from the spec: [lookup(fingerprint) -> CacheEntry | miss],
    which "on hit, increments hit_count and refreshes nothing else". *)
Definition lookup (fp : string) (c : gmap string CacheEntry)
  : option CacheEntry * gmap string CacheEntry :=
  match c !! fp with
  | Some e => (Some (bump e), <[fp := bump e]> c)
  | None => (None, c)
  end.

(** Modelled from the spec: [insert(fingerprint, response, model_used)],
    which "creates or overwrites an entry; overwriting resets hit_count
    to 0": the entry is a new [CacheEntry] built without [hit_count]. *)
Definition insert (fp resp model : string) (now : datetime) (c : gmap string CacheEntry)
  : gmap string CacheEntry :=
  match CacheEntry_init (Passed fp) (Passed resp) (Passed model) (Passed now) Omitted with
  | Valid e => <[fp := e]> c
  | ValidationError _ => c
  end.

End Cache.

(* ===================================================================== *)
(** ** The Decision Engine *)
(* ===================================================================== *)

Module Engine.

Import schemas.

(** The repository holds no routing code; the engine below follows
    section 4.4 of the specification, on the schemas of the repository. *)

(** The user tiers named by [ChatRequest.user_tier]: "free, pro,
    enterprise". *)
Inductive Tier : Type := Free | Pro | Enterprise.

Definition parse_tier (s : string) : option Tier :=
  if String.eqb s "free" then Some Free
  else if String.eqb s "pro" then Some Pro
  else if String.eqb s "enterprise" then Some Enterprise
  else None.

(** Modelled from the spec: the weight table of section 4.4,
    [{free: {quality:0.2, cost:0.5, latency:0.3},
      pro: {quality:0.5, cost:0.2, latency:0.3},
      enterprise: {quality:0.7, cost:0.1, latency:0.2}}]. *)
Record Weights : Type := mkWeights {
  w_quality : float;
  w_cost : float;
  w_latency : float
}.

Definition tier_weight (t : Tier) : Weights :=
  match t with
  | Free => mkWeights (Float64.ratio 2 10) (Float64.ratio 5 10) (Float64.ratio 3 10)
  | Pro => mkWeights (Float64.ratio 5 10) (Float64.ratio 2 10) (Float64.ratio 3 10)
  | Enterprise => mkWeights (Float64.ratio 7 10) (Float64.ratio 1 10) (Float64.ratio 2 10)
  end.

(** Modelled from the spec: what it leaves to configuration and to
    external collaborators: the fingerprint function, the feature extractor, the
    derivation of the raw objective values of a candidate (higher is
    better), the quality threshold, the fallback model of each tier and
    the wording of the justification. *)
Record Config : Type := mkConfig {
  fingerprint : string -> option string -> string;
  extract : string -> QueryFeatures;
  derive_quality : QueryFeatures -> string -> Tracker.Snapshot -> option (list SimilarQuery) -> float;
  derive_cost : string -> Tracker.Snapshot -> float;
  derive_latency : string -> Tracker.Snapshot -> float;
  min_quality : float;
  fallback_model : Tier -> string;
  fallback_confidence : float;
  explain : Tier -> ModelCandidate -> string
}.

(** Modelled from the spec: the shared state a call of the engine runs
    against, the Performance Tracker and the Response Cache (section 5),
    with the "scoring-call counter" of section 8. *)
Record World : Type := mkWorld {
  tracker : Tracker.t;
  cache : gmap string CacheEntry;
  scoring_calls : nat
}.

(** The engine's computations thread the world. *)
Definition M (A : Type) : Type := World -> A * World.

Definition ret {A} (a : A) : M A := fun w => (a, w).

Definition bind {A B} (m : M A) (k : A -> M B) : M B :=
  fun w => let (a, w') := m w in k a w'.

Notation "x <- m ;; k" := (bind m (fun x => k))
  (at level 100, m at next level, right associativity).

Definition cache_lookup (fp : string) : M (option CacheEntry) :=
  fun w =>
    let (r, c') := Cache.lookup fp (cache w) in
    (r, mkWorld (tracker w) c' (scoring_calls w)).

Definition read_snapshot (name : string) : M Tracker.Snapshot :=
  fun w => (Tracker.snapshot (tracker w) name, w).

Definition count_scoring : M unit :=
  fun w => (tt, mkWorld (tracker w) (cache w) (S (scoring_calls w))).

(** Modelled from the spec: what [route] ends with, a decision or an
    exception; [NoEligibleModelsError] is the one the specification
    names. *)
Inductive Exception : Type :=
  | NoEligibleModelsError
  | InvalidDecision (errors : list ErrorDetails).

Inductive Outcome : Type :=
  | Returned (d : RoutingDecision)
  | Raised (e : Exception).

(** A decision is built through the constructor of [RoutingDecision],
    leaving [alternatives] out. *)
Definition decision (model why : string) (conf : float) (fb : bool) : Outcome :=
  match RoutingDecision_init (Passed model) (Passed why) (Passed conf) Omitted (Passed fb) with
  | Valid d => Returned d
  | ValidationError errs => Raised (InvalidDecision errs)
  end.

(** *** Scoring (steps 2 and 3) *)

(** Modelled from the spec: step 2, "for each eligible candidate: derive
    quality_score from (a) a static per-model capability baseline ...
    blended with (b) the Performance Tracker's avgRating-derived signal,
    and (c) optionally a boost/penalty from similar historical queries
    ...  Derive cost_score and latency_score similarly".  The blends are
    the configuration's; what is fixed here is what they read. *)

Record RawScore : Type := mkRawScore {
  rs_name : string;
  rs_quality : float;
  rs_cost : float;
  rs_latency : float
}.

Definition raw_score (cfg : Config) (f : QueryFeatures)
  (similar : option (list SimilarQuery)) (name : string) (s : Tracker.Snapshot)
  : RawScore :=
  mkRawScore name (derive_quality cfg f name s similar)
    (derive_cost cfg name s) (derive_latency cfg name s).

(** Scoring one candidate reads its snapshot and counts one scoring
    call. *)
Definition score_one (cfg : Config) (f : QueryFeatures)
  (similar : option (list SimilarQuery)) (name : string) : M RawScore :=
  _ <- count_scoring ;;
  s <- read_snapshot name ;;
  ret (raw_score cfg f similar name s).

Fixpoint score_all (cfg : Config) (f : QueryFeatures)
  (similar : option (list SimilarQuery)) (names : list string) : M (list RawScore) :=
  match names with
  | [] => ret []
  | n :: rest =>
      r <- score_one cfg f similar n ;;
      rs <- score_all cfg f similar rest ;;
      ret (r :: rs)
  end.

Definition fmin (a b : float) : float := if Float64.lt b a then b else a.
Definition fmax (a b : float) : float := if Float64.lt a b then b else a.

(** Modelled from the spec: "normalized to [0,1] across the candidate
    set (min-max normalization; if all candidates are equal, all receive
    0.5 to avoid division by zero)". *)
Definition normalise (xs : list float) (x : float) : float :=
  match xs with
  | [] => Float64.half
  | x0 :: rest =>
      let lo := fold_left fmin rest x0 in
      let hi := fold_left fmax rest x0 in
      if Float64.lt lo hi then Float64.div (Float64.sub x lo) (Float64.sub hi lo)
      else Float64.half
  end.

(** Modelled from the spec: step 3, [overall_score = sum over the
    objectives of tier_weight[objective] * objective_score]. *)
Definition weighted (w : Weights) (q c l : float) : float :=
  Float64.add (Float64.add (Float64.mul (w_quality w) q) (Float64.mul (w_cost w) c))
              (Float64.mul (w_latency w) l).

Definition to_candidate (t : Tier) (costs lats : list float) (r : RawScore)
  : ModelCandidate :=
  let c := normalise costs (rs_cost r) in
  let l := normalise lats (rs_latency r) in
  mkModelCandidate (rs_name r) (rs_quality r) c l
    (weighted (tier_weight t) (rs_quality r) c l) None.

Definition score_candidates (cfg : Config) (t : Tier) (f : QueryFeatures)
  (similar : option (list SimilarQuery)) (names : list string)
  : M (list ModelCandidate) :=
  raws <- score_all cfg f similar names ;;
  ret (map (to_candidate t (map rs_cost raws) (map rs_latency raws)) raws).

(** *** Selection (step 4) *)

(** Modelled from the spec: step 4, "select the candidate with the
    maximum overall_score; ties broken deterministically by candidate
    declaration order (first listed wins)".  This is the running
    maximum: a later candidate replaces the best one only when its score
    is strictly greater.
    [i] is the index of [best], [k] the index of the head of [rest]. *)
Fixpoint best_from (i : nat) (best : ModelCandidate) (k : nat)
  (rest : list ModelCandidate) : nat * ModelCandidate :=
  match rest with
  | [] => (i, best)
  | c :: cs =>
      if Float64.lt (overall_score best) (overall_score c)
      then best_from k c (S k) cs
      else best_from i best (S k) cs
  end.

Definition select_best (cs : list ModelCandidate) : option (nat * ModelCandidate) :=
  match cs with
  | [] => None
  | c :: rest => Some (best_from 0%nat c 1%nat rest)
  end.

(** *** Confidence (step 5) *)

(** A value forced into [0,1]; what is not a number counts as 0. *)
Definition clamp01 (x : float) : float :=
  if Float64.le Float64.zero x
  then (if Float64.le x Float64.one then x else Float64.one)
  else Float64.zero.

(** Modelled from the spec: step 5, "normalized margin between the
    winner's overall_score and the runner-up's (e.g., min(1.0, (winner -
    runnerUp) / winner), clamped to [0,1]); with a single candidate,
    confidence = 1.0". *)
Definition margin (winner : ModelCandidate) (others : list ModelCandidate) : float :=
  match select_best others with
  | None => Float64.one
  | Some (_, runner_up) =>
      clamp01 (Float64.div
                 (Float64.sub (overall_score winner) (overall_score runner_up))
                 (overall_score winner))
  end.

(** *** The entry point *)

(** Modelled from the spec: step 6, "if quality_score for every
    candidate falls below a configured minimum-acceptable threshold ...
    the engine instead returns the tier's designated fallback model with
    fallback=true and reason=low_confidence_fallback"; otherwise the
    confident pick of steps 4 and 5. *)
Definition all_below (threshold : float) (cs : list ModelCandidate) : bool :=
  forallb (fun c => Float64.lt (quality_score c) threshold) cs.

Definition pick (cfg : Config) (t : Tier) (scored : list ModelCandidate) : Outcome :=
  if all_below (min_quality cfg) scored then
    decision (fallback_model cfg t) "low_confidence_fallback"
           (clamp01 (fallback_confidence cfg)) true
  else
    match select_best scored with
    | None => Raised NoEligibleModelsError
    | Some (i, winner) =>
        decision (model_name winner) (explain cfg t winner)
               (margin winner (delete i scored)) false
    end.

(** Modelled from the spec: the repository has no routing code.  This is
    [route] as section 4.4 of the specification describes it.  The input
    contract comes first ("an explicit set of eligible ModelCandidate
    identifiers (>=1; engine fails with NoEligibleModelsError if
    empty)"); then the algorithm: step 1, the cache ("on hit, return a
    RoutingDecision with fallback=false, reason=cache_hit, confidence=1.0,
    selected_model = cached entry's model_used - skip all scoring");
    on a miss, steps 2 to 6. *)
Definition route (cfg : Config) (query user_id : string) (t : Tier)
  (context : option string) (candidates : list string)
  (similar : option (list SimilarQuery)) : M Outcome :=
  match candidates with
  | [] => ret (Raised NoEligibleModelsError)
  | _ :: _ =>
      hit <- cache_lookup (fingerprint cfg query context) ;;
      match hit with
      | Some e => ret (decision (model_used e) "cache_hit" Float64.one false)
      | None =>
          scored <- score_candidates cfg t (extract cfg query) similar candidates ;;
          ret (pick cfg t scored)
      end
  end.

(** Two worlds that a decision cannot tell apart: the same tracker, and
    caches that hold the same model under every fingerprint (hit counts
    and the scoring counter may differ). *)
Definition same_view (w w' : World) : Prop :=
  tracker w = tracker w'
  /\ forall fp, model_used <$> cache w !! fp = model_used <$> cache w' !! fp.

(** What the running maximum keeps true of the candidates seen so far,
    once it holds a number. *)
Definition leads (seen : list ModelCandidate) (i : nat) (best : ModelCandidate) : Prop :=
  seen !! i = Some best
  /\ Float64.is_nan (overall_score best) = false
  /\ forall j c, seen !! j = Some c ->
       Float64.is_nan (overall_score c) = false ->
       Float64.le (overall_score c) (overall_score best) = true
       /\ ((j < i)%nat -> Float64.lt (overall_score c) (overall_score best) = true).

(** [w], at index [i], is the candidate the running maximum ends on.
    When the score of the first candidate is not a number, no later
    score compares greater and the first candidate stays.  Otherwise
    [w] has a score that is a number, every candidate whose score is a
    number scores at most as much, and every such candidate listed
    before [w] scores strictly less: [w] is the first listed among the
    candidates of greatest score. *)
Definition is_winner (cs : list ModelCandidate) (i : nat) (w : ModelCandidate) : Prop :=
  cs !! i = Some w
  /\ match cs with
     | [] => False
     | c0 :: _ =>
         if Float64.is_nan (overall_score c0) then i = 0%nat
         else
           Float64.is_nan (overall_score w) = false
           /\ forall j c, cs !! j = Some c ->
                Float64.is_nan (overall_score c) = false ->
                Float64.le (overall_score c) (overall_score w) = true
                /\ ((j < i)%nat ->
                    Float64.lt (overall_score c) (overall_score w) = true)
     end.

(** Modelled from the spec: [route] with step 1 of the algorithm taken
    before anything else ("on hit, return a RoutingDecision ... - skip
    all scoring.  This is the dominant performance path and must be
    checked first"), the candidate list being looked at only on a miss.
    It differs from [route] in one case only, a call without candidates
    whose fingerprint is cached. *)
Definition route_cache_first (cfg : Config) (query user_id : string) (t : Tier)
  (context : option string) (candidates : list string)
  (similar : option (list SimilarQuery)) : M Outcome :=
  hit <- cache_lookup (fingerprint cfg query context) ;;
  match hit with
  | Some e => ret (decision (model_used e) "cache_hit" Float64.one false)
  | None =>
      match candidates with
      | [] => ret (Raised NoEligibleModelsError)
      | _ :: _ =>
          scored <- score_candidates cfg t (extract cfg query) similar candidates ;;
          ret (pick cfg t scored)
      end
  end.

End Engine.

(* ===================================================================== *)
(** ** A configuration to run the engine on *)
(* ===================================================================== *)

Module Scenario.

Import schemas Engine.

(** The end-to-end scenario of the specification: two candidates,
    modelA (quality 0.9, cost 0.3, latency 0.7) and modelB (quality 0.5,
    cost 0.9, latency 0.9), with nothing tracked and nothing cached.  The
    fingerprint joins query and context; the threshold is 0.3. *)
Definition by_model (a b other : float) (name : string) : float :=
  if String.eqb name "modelA" then a
  else if String.eqb name "modelB" then b
  else other.

Definition features (q : string) : QueryFeatures :=
  let n := Z.of_nat (String.length q) in
  mkQueryFeatures n n 1 1 false false false false None.

Definition cfg : Config :=
  {| fingerprint q ctx :=
       (q ++ "|" ++ match ctx with Some c => c | None => "" end)%string;
     extract := features;
     derive_quality _ name _ _ :=
       by_model (Float64.ratio 9 10) (Float64.ratio 5 10) Float64.half name;
     derive_cost name _ :=
       by_model (Float64.ratio 3 10) (Float64.ratio 9 10) Float64.half name;
     derive_latency name _ :=
       by_model (Float64.ratio 7 10) (Float64.ratio 9 10) Float64.half name;
     min_quality := Float64.ratio 3 10;
     fallback_model _ := "modelB"%string;
     fallback_confidence := Float64.zero;
     explain _ _ := "highest_overall_score"%string |}.

Definition fresh : World :=
  mkWorld (Tracker.mkTracker ∅ ∅ 0) ∅ 0.

(** The world after [insert(fp, "R", "modelA")] for the fingerprint of
    the query "hello" without context. *)
Definition cached : World :=
  mkWorld (Tracker.mkTracker ∅ ∅ 0)
    (Cache.insert (fingerprint cfg "hello" None) "R" "modelA" 0 ∅) 0.

End Scenario.

(* ===================================================================== *)
(** * Properties of the float comparisons *)
(* ===================================================================== *)

Module Float64_facts.

(** The comparison of two floats, case by case. *)
Ltac cmp_cases :=
  repeat match goal with
  | |- context [Z.compare ?a ?b] => destruct (Z.compare_spec a b)
  | H : context [Z.compare ?a ?b] |- _ => destruct (Z.compare_spec a b)
  | |- context [Pos.compare ?a ?b] => destruct (Pos.compare_spec a b)
  | H : context [Pos.compare ?a ?b] |- _ => destruct (Pos.compare_spec a b)
  end.

Lemma lt_irrefl (x : float) : Float64.lt x x = false.
Proof.
  unfold Float64.lt, SFltb, SFcompare.
  destruct x as [s|s| |s m e]; try destruct s; try reflexivity;
    change (Pos.compare_cont Eq) with Pos.compare;
    rewrite Z.compare_refl, Pos.compare_refl; reflexivity.
Qed.

Lemma lt_le (x y : float) : Float64.lt x y = true -> Float64.le x y = true.
Proof.
  unfold Float64.lt, Float64.le, SFltb, SFleb.
  destruct (SFcompare x y) as [[]|]; congruence.
Qed.

Lemma lt_le_trans (a b c : float) :
  Float64.lt a b = true -> Float64.le b c = true -> Float64.lt a c = true.
Proof.
  unfold Float64.lt, Float64.le, SFltb, SFleb, SFcompare.
  destruct a as [sa|sa| |sa ma ea], b as [sb|sb| |sb mb eb], c as [sc|sc| |sc mc ec];
    try destruct sa; try destruct sb; try destruct sc; simpl;
    try congruence;
    change (Pos.compare_cont Eq) with Pos.compare;
    intros H1 H2; cmp_cases; simpl in *; subst; try congruence; try lia.
Qed.

Lemma le_lt_trans (a b c : float) :
  Float64.le a b = true -> Float64.lt b c = true -> Float64.lt a c = true.
Proof.
  unfold Float64.lt, Float64.le, SFltb, SFleb, SFcompare.
  destruct a as [sa|sa| |sa ma ea], b as [sb|sb| |sb mb eb], c as [sc|sc| |sc mc ec];
    try destruct sa; try destruct sb; try destruct sc; simpl;
    try congruence;
    change (Pos.compare_cont Eq) with Pos.compare;
    intros H1 H2; cmp_cases; simpl in *; subst; try congruence; try lia.
Qed.

(** A comparison that holds has numbers on both sides. *)
Lemma lt_not_nan (a b : float) :
  Float64.lt a b = true -> Float64.is_nan a = false /\ Float64.is_nan b = false.
Proof.
  unfold Float64.lt, SFltb, SFcompare.
  destruct a as [sa|sa| |sa ma ea], b as [sb|sb| |sb mb eb]; simpl;
    intros H; try discriminate H; split; reflexivity.
Qed.

Lemma lt_nan_l (a b : float) : Float64.is_nan a = true -> Float64.lt a b = false.
Proof. destruct a; simpl; intros H; try discriminate H. reflexivity. Qed.

Lemma le_refl (a : float) : Float64.is_nan a = false -> Float64.le a a = true.
Proof.
  unfold Float64.le, SFleb, SFcompare.
  destruct a as [s|s| |s m e]; simpl; intros H; try discriminate H;
    try destruct s; try reflexivity;
    change (Pos.compare_cont Eq) with Pos.compare;
    rewrite Z.compare_refl, Pos.compare_refl; reflexivity.
Qed.

(** Numbers are totally ordered. *)
Lemma le_total (a b : float) :
  Float64.is_nan a = false -> Float64.is_nan b = false ->
  Float64.lt a b = false -> Float64.le b a = true.
Proof.
  unfold Float64.lt, Float64.le, SFltb, SFleb, SFcompare.
  destruct a as [sa|sa| |sa ma ea], b as [sb|sb| |sb mb eb];
    try destruct sa; try destruct sb; simpl;
    try congruence;
    change (Pos.compare_cont Eq) with Pos.compare;
    intros _ _ H; cmp_cases; simpl in *; subst; try congruence; try lia.
Qed.

Lemma lt_trans (a b c : float) :
  Float64.lt a b = true -> Float64.lt b c = true -> Float64.lt a c = true.
Proof. intros H1 H2. eapply lt_le_trans; [exact H1 | apply lt_le, H2]. Qed.

(** A mantissa of [d] binary digits lies between [2^(d-1)] and [2^d]. *)
Lemma digits2_pos_bounds (m : positive) :
  2 ^ (Z.pos (digits2_pos m) - 1) <= Z.pos m < 2 ^ Z.pos (digits2_pos m).
Proof.
  induction m as [m IH|m IH|]; cbn [digits2_pos].
  - rewrite Pos2Z.inj_succ.
    replace (Z.succ (Z.pos (digits2_pos m)) - 1)
      with (Z.succ (Z.pos (digits2_pos m) - 1)) by lia.
    rewrite !Z.pow_succ_r by lia. lia.
  - rewrite Pos2Z.inj_succ.
    replace (Z.succ (Z.pos (digits2_pos m)) - 1)
      with (Z.succ (Z.pos (digits2_pos m) - 1)) by lia.
    rewrite !Z.pow_succ_r by lia. lia.
  - cbv. split; congruence.
Qed.

(** Two positive finite floats compare by exponent, then by mantissa. *)
Lemma le_finite_pos (m c : positive) (e e0 : Z) :
  Float64.le (S754_finite false m e) (S754_finite false c e0)
  = match e ?= e0 with
    | Lt => true
    | Eq => Z.pos m <=? Z.pos c
    | Gt => false
    end.
Proof.
  unfold Float64.le, SFleb, SFcompare, Z.leb.
  change (Z.pos m ?= Z.pos c) with (Pos.compare_cont Eq m c).
  destruct (e ?= e0); [destruct (Pos.compare_cont Eq m c)|..]; reflexivity.
Qed.

(** A binary64 mantissa has 53 digits, or fewer at the least exponent. *)
Lemma binary64_digits (m : positive) (e : Z) :
  Float64.is_binary64 (S754_finite false m e) = true ->
  (Z.pos (digits2_pos m) = 53 /\ -1074 <= e)
  \/ (Z.pos (digits2_pos m) <= 53 /\ e = -1074).
Proof.
  unfold Float64.is_binary64, valid_binary, bounded, canonical_mantissa, fexp, emin,
    Float64.prec, Float64.emax.
  intros Hv. apply andb_prop in Hv as [Hc _]. apply Z.eqb_eq in Hc. lia.
Qed.

Lemma one_eq : Float64.one = S754_finite false (Z.to_pos (2 ^ 52)) (-52).
Proof. reflexivity. Qed.

(** On binary64 values, Python's [0.0 <= x <= 1.0] holds exactly when
    the number [x] stands for lies in [0,1]. *)
Lemma in_unit_interval_value (x : float) :
  Float64.is_binary64 x = true ->
  (Float64.in_unit_interval x = true <-> Float64.value_in_unit x).
Proof.
  destruct x as [s|s| |s m e]; intros Hv.
  - split; [intros _; exact I | reflexivity].
  - destruct s; (split; [discriminate | intros []]).
  - split; [discriminate | intros []].
  - destruct s. { split; [discriminate | intros []]. }
    apply binary64_digits in Hv.
    pose proof (digits2_pos_bounds m) as [Hlo Hhi].
    unfold Float64.in_unit_interval.
    replace (Float64.le Float64.zero (S754_finite false m e)) with true by reflexivity.
    rewrite one_eq, le_finite_pos, Z2Pos.id by (apply Z.pow_pos_nonneg; lia).
    unfold Float64.value_in_unit.
    set (d := Z.pos (digits2_pos m)) in *. clearbody d.
    destruct (Z.compare_spec e (-52)) as [He|He|He]; cbn [andb].
    + subst e. change (- -52) with 52.
      destruct (Z.leb_spec (Z.pos m) (2 ^ 52)) as [Hm|Hm];
        (split; [intros H; try discriminate; split; lia
                | intros [_ H]; try reflexivity; lia]).
    + split; [intros _|reflexivity]. split; [lia|].
      assert (d <= 53) by lia.
      assert (2 ^ d <= 2 ^ (- e)) by (apply Z.pow_le_mono_r; lia). lia.
    + split; [discriminate|]. intros [He0 Hm].
      assert (d = 53) by lia.
      assert (2 ^ (- e) < 2 ^ (d - 1)) by (apply Z.pow_lt_mono_r; lia). lia.
Qed.

End Float64_facts.

(* ===================================================================== *)
(** * Properties of the schemas *)
(* ===================================================================== *)

Module schemas_facts.

Import schemas.

(** Collecting errors never turns a failure into a success. *)
Lemma ap_valid_inv {A B} (f : Validated (A -> B)) (x : Validated A) (b : B) :
  f <*> x = Valid b -> exists g a, f = Valid g /\ x = Valid a /\ b = g a.
Proof.
  destruct f as [g|e1], x as [a|e2]; simpl; intros H; try discriminate.
  inversion H; subst. eauto.
Qed.

Lemma ap_error_r {A B} (f : Validated (A -> B)) (e : list ErrorDetails) :
  exists errs, f <*> ValidationError e = ValidationError errs /\ e ⊆ errs.
Proof.
  destruct f as [g|e1]; simpl; eexists; (split; [reflexivity | set_solver]).
Qed.

Lemma ap_error_l {A B} (e : list ErrorDetails) (x : Validated A) :
  exists errs, @ap A B (ValidationError e) x = ValidationError errs /\ e ⊆ errs.
Proof.
  destruct x as [a|e2]; simpl; eexists; (split; [reflexivity | set_solver]).
Qed.

(** An unconstrained field accepts whatever is passed. *)
Lemma validate_number_required {A} `{PyOrd A} (name : string) (v : A) :
  validate_number name required (Passed v) = Valid v.
Proof. reflexivity. Qed.

(** A validated number is the argument passed, or the default. *)
Lemma validate_number_valid_inv {A} `{PyOrd A} name (fi : FieldInfo A) a v :
  validate_number name fi a = Valid v ->
  (a = Passed v /\ number_size_validator fi v = None) \/
  (a = Omitted /\ default fi = Some v).
Proof.
  destruct a as [|x]; simpl.
  - unfold from_default. destruct (default fi); intros E; inversion E; auto.
  - destruct (number_size_validator fi x) eqn:E; intros E'; inversion E'; subst; auto.
Qed.

Lemma validate_field_valid_inv {A} name (fi : FieldInfo A) a v :
  validate_field name fi a = Valid v ->
  a = Passed v \/ (a = Omitted /\ default fi = Some v).
Proof.
  destruct a as [|x]; simpl.
  - unfold from_default. destruct (default fi); intros E; inversion E; auto.
  - intros E; inversion E; auto.
Qed.

(** The bounds check of [rating], in arithmetic. *)
Lemma rating_in_range (r : Z) :
  number_size_validator FeedbackRequest_rating r = None <-> 1 <= r <= 5.
Proof.
  unfold number_size_validator, FeedbackRequest_rating, py_le, PyOrd_int; simpl.
  destruct (Z.leb_spec 1 r), (Z.leb_spec r 5); split; intros; try lia; congruence.
Qed.

(** The bounds check of [confidence], as a Python comparison chain. *)
Lemma confidence_in_range (c : float) :
  number_size_validator RoutingDecision_confidence c = None <->
  Float64.in_unit_interval c = true.
Proof.
  unfold number_size_validator, RoutingDecision_confidence, py_le, PyOrd_float,
    Float64.in_unit_interval; simpl.
  destruct (Float64.le Float64.zero c), (Float64.le c Float64.one); simpl;
    split; intros; congruence.
Qed.

(** A rating outside 1..5 makes the constructor fail, on the field
    [rating], whatever the other arguments are. *)
Lemma FeedbackRequest_init_rejects
  (rid : kwarg string) (r : Z) (comment : kwarg (option string)) :
  r < 1 \/ 5 < r ->
  exists errs e, FeedbackRequest_init rid (Passed r) comment = ValidationError errs
                 /\ mkError "rating" e ∈ errs.
Proof.
  intros Hr. unfold FeedbackRequest_init, validate_number.
  destruct (number_size_validator FeedbackRequest_rating r) as [e|] eqn:E.
  - destruct (ap_error_r (Valid mkFeedbackRequest <*> validate_field "request_id" required rid)
                [mkError "rating" e]) as (errs1 & -> & Hin).
    destruct (ap_error_l (B := FeedbackRequest) errs1
                (validate_field "comment" (with_default None) comment))
      as (errs & -> & Hin').
    exists errs, e. split; [reflexivity|]. apply Hin', Hin. constructor.
  - apply rating_in_range in E. lia.
Qed.

(** C4.  A [FeedbackRequest] whose rating lies in 1..5 is constructed and
    keeps that rating; a rating below 1 or above 5 makes the constructor
    raise a validation error that names the field [rating], whatever the
    other arguments are, so no request object carrying such a rating
    exists to be handed on. *)
Theorem FeedbackRequest_rating_checked
  (rid : kwarg string) (r : Z) (comment : kwarg (option string)) :
  (1 <= r <= 5 ->
     forall id, FeedbackRequest_init (Passed id) (Passed r) comment
                = Valid (mkFeedbackRequest id r (value_or None comment)))
  /\ (r < 1 \/ 5 < r ->
     exists errs e, FeedbackRequest_init rid (Passed r) comment = ValidationError errs
                    /\ mkError "rating" e ∈ errs).
Proof.
  split.
  - intros Hr id. pose proof (proj2 (rating_in_range r) Hr) as E.
    unfold FeedbackRequest_init, validate_number. rewrite E.
    destruct comment; reflexivity.
  - apply FeedbackRequest_init_rejects.
Qed.

(** C5.  Whatever arguments the constructor of [RoutingDecision] is
    called with, a decision it returns has [0.0 <= confidence <= 1.0],
    so that the number its confidence stands for lies in the closed
    interval [0,1]; and a call passing a confidence for which that
    comparison fails (below 0, above 1, or not a number) raises a
    validation error on the field [confidence]. *)
Theorem RoutingDecision_confidence_checked
  (sm why : kwarg string) (alt : kwarg (option (list Dict))) (fb : kwarg bool) :
  (forall conf d, RoutingDecision_init sm why conf alt fb = Valid d ->
     Float64.in_unit_interval (confidence d) = true
     /\ (Float64.is_binary64 (confidence d) = true ->
         Float64.value_in_unit (confidence d)))
  /\ (forall c, Float64.in_unit_interval c = false ->
     exists errs e, RoutingDecision_init sm why (Passed c) alt fb = ValidationError errs
                    /\ mkError "confidence" e ∈ errs).
Proof.
  split.
  - intros conf d H. unfold RoutingDecision_init in H.
    apply ap_valid_inv in H as (g1 & b & H & _ & ->).
    apply ap_valid_inv in H as (g2 & a & H & _ & ->).
    apply ap_valid_inv in H as (g3 & c & H & Hc & ->).
    apply ap_valid_inv in H as (g4 & w & H & _ & ->).
    apply ap_valid_inv in H as (g5 & m & H & _ & ->).
    inversion H; subst; simpl.
    apply validate_number_valid_inv in Hc as [[_ Hc]|[_ Hc]]; [|discriminate].
    apply confidence_in_range in Hc. split; [exact Hc|].
    intros Hb. by apply Float64_facts.in_unit_interval_value.
  - intros c Hc. unfold RoutingDecision_init, validate_number.
    destruct (number_size_validator RoutingDecision_confidence c) as [e|] eqn:E.
    + destruct (ap_error_r (Valid mkRoutingDecision
                              <*> validate_field "selected_model" required sm
                              <*> validate_field "reason" required why)
                  [mkError "confidence" e]) as (errs1 & -> & Hin).
      destruct (ap_error_l (B := bool -> RoutingDecision) errs1
                  (validate_field "alternatives" (with_default None) alt))
        as (errs2 & -> & Hin2).
      destruct (ap_error_l (B := RoutingDecision) errs2
                  (validate_field "fallback" (with_default false) fb))
        as (errs & -> & Hin3).
      exists errs, e. split; [reflexivity|]. apply Hin3, Hin2, Hin. constructor.
    + apply confidence_in_range in E. congruence.
Qed.

(** C6, as stated, fails: the four counts of [QueryFeatures] are bare
    [int] annotations, and a construction with a negative count is
    accepted and keeps the negative value. *)
Lemma QueryFeatures_negative_count_accepted :
  exists qf,
    QueryFeatures_init (Passed (-1)) (Passed 0) (Passed 0) (Passed 0)
      (Passed false) (Passed false) (Passed false) (Passed false) Omitted = Valid qf
    /\ token_count qf < 0.
Proof. eexists. split; [reflexivity | simpl; lia]. Qed.

(** C6, amended.  A construction of [QueryFeatures] that passes the four
    counts and the four flags succeeds for all integers, negative ones
    included, and the value holds the counts exactly as passed: they are
    non-negative in the value exactly when they were in the call. *)
Theorem QueryFeatures_counts_unchecked
  (tc ql wc sc : Z) (c a v b : bool) (emb : kwarg (option string)) :
  exists qf,
    QueryFeatures_init (Passed tc) (Passed ql) (Passed wc) (Passed sc)
      (Passed c) (Passed a) (Passed v) (Passed b) emb = Valid qf
    /\ token_count qf = tc /\ query_length qf = ql
    /\ word_count qf = wc /\ sentence_count qf = sc
    /\ (0 <= token_count qf /\ 0 <= query_length qf
        /\ 0 <= word_count qf /\ 0 <= sentence_count qf
        <-> 0 <= tc /\ 0 <= ql /\ 0 <= wc /\ 0 <= sc).
Proof.
  exists (mkQueryFeatures tc ql wc sc c a v b (value_or None emb)).
  split; [destruct emb; reflexivity | simpl; tauto].
Qed.

(** C7, as stated, fails: the scores of [ModelCandidate] are bare [float]
    annotations, and a construction with a quality score of 2.0 is
    accepted. *)
Lemma ModelCandidate_score_above_one_accepted :
  exists mc,
    ModelCandidate_init (Passed "m") (Passed (Float64.of_Z 2)) (Passed Float64.half)
      (Passed Float64.half) (Passed Float64.half) Omitted = Valid mc
    /\ Float64.in_unit_interval (quality_score mc) = false.
Proof. eexists. split; reflexivity. Qed.

(** C7, amended.  A construction of [ModelCandidate] that passes a name
    and the four scores succeeds for all floats and the value holds the
    scores exactly as passed; each of the three objective scores lies in
    [0,1] in the value exactly when it did in the call. *)
Theorem ModelCandidate_scores_unchecked
  (name : string) (q c l o : float) (md : kwarg (option Dict)) :
  exists mc,
    ModelCandidate_init (Passed name) (Passed q) (Passed c) (Passed l) (Passed o) md
      = Valid mc
    /\ quality_score mc = q /\ cost_score mc = c /\ latency_score mc = l
    /\ Float64.in_unit_interval (quality_score mc) = Float64.in_unit_interval q
    /\ Float64.in_unit_interval (cost_score mc) = Float64.in_unit_interval c
    /\ Float64.in_unit_interval (latency_score mc) = Float64.in_unit_interval l.
Proof.
  exists (mkModelCandidate name q c l o (value_or None md)).
  split; [destruct md; reflexivity | simpl; tauto].
Qed.

(** C9.  A [ChatRequest] constructed without [user_tier] has the tier
    "free": whenever such a call returns a request, its [user_tier] is
    "free". *)
Theorem ChatRequest_user_tier_default
  (query user_id : kwarg string) (context : kwarg (option string)) (r : ChatRequest)
  (H : ChatRequest_init query user_id context Omitted = Valid r) :
  user_tier r = Some "free"%string.
Proof.
  unfold ChatRequest_init in H.
  apply ap_valid_inv in H as (g & t & H & Ht & ->).
  apply ap_valid_inv in H as (g1 & x & H & _ & ->).
  apply ap_valid_inv in H as (g2 & u & H & _ & ->).
  apply ap_valid_inv in H as (g3 & q & H & _ & ->).
  inversion H; subst; simpl.
  apply validate_field_valid_inv in Ht as [Ht|[_ Ht]]; [discriminate|].
  simpl in Ht. congruence.
Qed.

(** Such a call does return a request as soon as the two required
    arguments are passed. *)
Lemma ChatRequest_init_total (q u : string) (context : kwarg (option string)) :
  ChatRequest_init (Passed q) (Passed u) context Omitted
  = Valid (mkChatRequest q u (value_or None context) (Some "free"%string)).
Proof. destruct context; reflexivity. Qed.

Lemma ChatRequest_user_tier_default_witness :
  user_tier (mkChatRequest "Reverse a string" "u1" None (Some "free"%string))
  = Some "free"%string.
Proof.
  apply (ChatRequest_user_tier_default (Passed "Reverse a string"%string)
           (Passed "u1"%string) Omitted).
  reflexivity.
Defined.

(** C10.  A [CacheEntry] constructed without [hit_count] has a hit count
    of 0: whenever such a call returns an entry, its [hit_count] is 0. *)
Theorem CacheEntry_hit_count_default
  (query_hash response model_used : kwarg string) (timestamp : kwarg datetime)
  (e : CacheEntry)
  (H : CacheEntry_init query_hash response model_used timestamp Omitted = Valid e) :
  hit_count e = 0.
Proof.
  unfold CacheEntry_init in H.
  apply ap_valid_inv in H as (g & n & H & Hn & ->).
  apply ap_valid_inv in H as (g1 & t & H & _ & ->).
  apply ap_valid_inv in H as (g2 & m & H & _ & ->).
  apply ap_valid_inv in H as (g3 & x & H & _ & ->).
  apply ap_valid_inv in H as (g4 & q & H & _ & ->).
  inversion H; subst; simpl.
  apply validate_number_valid_inv in Hn as [[Hn _]|[_ Hn]]; [discriminate|].
  simpl in Hn. congruence.
Qed.

Lemma CacheEntry_init_total (h resp m : string) (ts : datetime) :
  CacheEntry_init (Passed h) (Passed resp) (Passed m) (Passed ts) Omitted
  = Valid (mkCacheEntry h resp m ts 0).
Proof. reflexivity. Qed.

Lemma CacheEntry_hit_count_default_witness :
  hit_count (mkCacheEntry "fp" "R" "modelA" 0 0) = 0.
Proof.
  apply (CacheEntry_hit_count_default (Passed "fp"%string) (Passed "R"%string)
           (Passed "modelA"%string) (Passed 0) _).
  reflexivity.
Defined.

End schemas_facts.

(* ===================================================================== *)
(** * Properties of the Performance Tracker *)
(* ===================================================================== *)

Module Tracker_facts.

Import database Tracker.

Lemma insert_consistent pk name now : consistent (ModelPerformanceDB_insert pk name now).
Proof. unfold consistent; simpl; lia. Qed.

(** One call keeps the counters consistent, whatever it reports. *)
Lemma recordOutcome_row_consistent lat cost ok r :
  consistent r -> consistent (recordOutcome_row lat cost ok r).
Proof. unfold consistent; destruct ok; simpl; lia. Qed.

(** A call counts one request, and at most one success. *)
Lemma recordOutcome_row_counts lat cost ok r :
  total_requests (recordOutcome_row lat cost ok r) = total_requests r + 1
  /\ success_count (recordOutcome_row lat cost ok r)
     = success_count r + (if ok then 1 else 0).
Proof. destruct ok; simpl; split; lia. Qed.

Lemma history_consistent calls : forall r,
  consistent r -> Forall consistent (history calls r).
Proof.
  induction calls as [|o rest IH]; intros r Hr; simpl.
  - constructor.
  - assert (consistent (apply_call r o)) as Hr'
      by (apply recordOutcome_row_consistent, Hr).
    constructor; [exact Hr' | apply IH, Hr'].
Qed.

(** The [n]-th row of the history is the row after the first [n+1]
    calls. *)
Lemma history_lookup calls : forall r (n : nat),
  (n < length calls)%nat ->
  history calls r !! n = Some (recordOutcomes (take (S n) calls) r).
Proof.
  induction calls as [|o rest IH]; intros r n Hn; simpl in *.
  - lia.
  - destruct n as [|n]; simpl.
    + reflexivity.
    + apply IH. lia.
Qed.

Lemma recordOutcomes_consistent calls : forall r,
  consistent r -> consistent (recordOutcomes calls r).
Proof.
  unfold recordOutcomes.
  induction calls as [|o rest IH]; intros r Hr; simpl; [exact Hr|].
  apply IH, recordOutcome_row_consistent, Hr.
Qed.

Lemma history_length calls : forall r, length (history calls r) = length calls.
Proof. induction calls as [|o rest IH]; intros r; simpl; [|rewrite IH]; reflexivity. Qed.

(** C8.  Starting from the row as inserted (no request, no success),
    after every call of any sequence of [recordOutcome] calls the row has
    [success_count <= total_requests]: this holds of each row of the
    history, which lists the row after each call, and so of the row
    after any number of calls. *)
Theorem recordOutcome_success_le_total
  (pk : Z) (name : string) (now : schemas.datetime) (calls : list Call) :
  let r0 := ModelPerformanceDB_insert pk name now in
  Forall (fun r => success_count r <= total_requests r) (history calls r0)
  /\ forall n : nat,
       success_count (recordOutcomes (take n calls) r0)
       <= total_requests (recordOutcomes (take n calls) r0).
Proof.
  intros r0. split.
  - eapply Forall_impl; [apply history_consistent, insert_consistent|].
    intros r [_ Hr]. exact Hr.
  - intros n. apply recordOutcomes_consistent, insert_consistent.
Qed.

(** Feedback with a rating outside 1..5 stops at the boundary: the call
    reports the validation errors and the tracker is the one it was. *)
Lemma submit_feedback_invalid_rating served rid (r : Z) comment (tr : Tracker.t) :
  r < 1 \/ 5 < r ->
  exists errs, submit_feedback served rid (Passed r) comment tr
               = (FeedbackInvalid errs, tr).
Proof.
  intros Hr. unfold submit_feedback.
  destruct (schemas_facts.FeedbackRequest_init_rejects rid r comment Hr)
    as (errs & e & -> & _).
  by exists errs.
Qed.

(** Ratings 5, 3, 4 for one model give the mean 4.0 exactly. *)
Example recordFeedback_mean :
  let tr := recordFeedback "m" 4 (recordFeedback "m" 3
              (recordFeedback "m" 5 (mkTracker ∅ ∅ 0))) in
  avg_rating (row_of tr "m") = Some (Float64.of_Z 4).
Proof. vm_compute. reflexivity. Qed.

(** The same invariant on the store: a call for one model keeps every
    stored row consistent. *)
Lemma recordOutcome_store_consistent name lat cost ok (tr : Tracker.t) :
  map_Forall (fun _ r => consistent r) (rows tr) ->
  map_Forall (fun _ r => consistent r) (rows (recordOutcome name lat cost ok tr)).
Proof.
  intros Hall. unfold recordOutcome; simpl.
  apply map_Forall_insert_2; [|exact Hall].
  apply recordOutcome_row_consistent. unfold row_of.
  destruct (rows tr !! name) as [r|] eqn:E.
  - exact (Hall _ _ E).
  - apply insert_consistent.
Qed.

End Tracker_facts.

(* ===================================================================== *)
(** * Properties of the Decision Engine *)
(* ===================================================================== *)


Module Engine_facts.

Import schemas Engine.

(** *** Decisions are well formed *)

Lemma clamp01_in_unit_interval (x : float) :
  Float64.in_unit_interval (clamp01 x) = true.
Proof.
  unfold clamp01, Float64.in_unit_interval.
  destruct (Float64.le Float64.zero x) eqn:E0; [|reflexivity].
  destruct (Float64.le x Float64.one) eqn:E1; [|reflexivity].
  by rewrite E0, E1.
Qed.

Lemma decision_valid (model why : string) (conf : float) (fb : bool) :
  Float64.in_unit_interval conf = true ->
  decision model why conf fb = Returned (mkRoutingDecision model why conf None fb).
Proof.
  intros H. apply schemas_facts.confidence_in_range in H.
  unfold decision, RoutingDecision_init, validate_number. rewrite H. reflexivity.
Qed.

Lemma margin_in_unit_interval w others :
  Float64.in_unit_interval (margin w others) = true.
Proof.
  unfold margin. destruct (select_best others) as [[i r]|].
  - apply clamp01_in_unit_interval.
  - reflexivity.
Qed.

(** *** Scoring reads the tracker and nothing else *)

Lemma score_all_run cfg f sim names : forall w,
  score_all cfg f sim names w
  = (map (fun n => raw_score cfg f sim n (Tracker.snapshot (tracker w) n)) names,
     mkWorld (tracker w) (cache w) (length names + scoring_calls w)).
Proof.
  induction names as [|n rest IH]; intros w; simpl.
  - destruct w; reflexivity.
  - unfold bind, score_one, bind, count_scoring, read_snapshot, ret. simpl.
    rewrite IH. simpl. do 2 f_equal. lia.
Qed.

(** The candidates a world's tracker yields, as a pure function. *)
Lemma score_candidates_run cfg t f sim names w :
  exists scored,
    score_candidates cfg t f sim names w
    = (scored, mkWorld (tracker w) (cache w) (length names + scoring_calls w))
    /\ forall w', tracker w' = tracker w ->
         fst (score_candidates cfg t f sim names w') = scored.
Proof.
  unfold score_candidates, bind, ret. rewrite score_all_run.
  eexists. split; [reflexivity|].
  intros w' E. rewrite score_all_run, E. reflexivity.
Qed.

(** The scored candidates are the given names, in the given order. *)
Lemma score_candidates_names cfg t f sim names w :
  model_name <$> (score_candidates cfg t f sim names w).1 = names.
Proof.
  unfold score_candidates, bind, ret. rewrite score_all_run. simpl.
  rewrite <- !list_fmap_compose. simpl.
  induction names as [|n rest IH]; simpl; [reflexivity|].
  f_equal. exact IH.
Qed.

(** *** Selection *)

(** A best candidate whose score is not a number is never replaced. *)
Lemma best_from_nan rest : forall i best k,
  Float64.is_nan (overall_score best) = true ->
  best_from i best k rest = (i, best).
Proof.
  induction rest as [|c cs IH]; intros i best k Hn; simpl; [reflexivity|].
  rewrite (Float64_facts.lt_nan_l _ (overall_score c) Hn). by apply IH.
Qed.

Lemma best_from_leads rest : forall seen i best,
  leads seen i best ->
  leads (seen ++ rest) (best_from i best (length seen) rest).1
        (best_from i best (length seen) rest).2.
Proof.
  induction rest as [|c cs IH]; intros seen i best (Hi & Hnum & Hmax); simpl.
  - rewrite app_nil_r. done.
  - replace (seen ++ c :: cs) with ((seen ++ [c]) ++ cs) by by rewrite <- app_assoc.
    replace (S (length seen)) with (length (seen ++ [c]))
      by (rewrite length_app; simpl; lia).
    pose proof (lookup_lt_Some _ _ _ Hi) as Hlen.
    destruct (Float64.lt (overall_score best) (overall_score c)) eqn:E.
    + destruct (Float64_facts.lt_not_nan _ _ E) as [_ Hc].
      replace (length seen) with (length (seen ++ [c]) - 1)%nat at 1
        by (rewrite length_app; simpl; lia).
      replace (length (seen ++ [c]) - 1)%nat with (length seen)
        by (rewrite length_app; simpl; lia).
      apply IH. split; [|split].
      * rewrite lookup_app_r by lia. by rewrite Nat.sub_diag.
      * exact Hc.
      * intros j c' Hj Hc'. apply lookup_app_Some in Hj as [Hj|[Hge Hj]].
        -- destruct (Hmax j c' Hj Hc') as [Hle _].
           assert (Float64.lt (overall_score c') (overall_score c) = true) as Hlt
             by (eapply Float64_facts.le_lt_trans; eassumption).
           split; [by apply Float64_facts.lt_le | intros _; exact Hlt].
        -- destruct (j - length seen)%nat eqn:Ej; simpl in Hj; [|done].
           inversion Hj; subst.
           split; [by apply Float64_facts.le_refl | lia].
    + apply IH. split; [|split].
      * apply lookup_app_l_Some, Hi.
      * exact Hnum.
      * intros j c' Hj Hc'. apply lookup_app_Some in Hj as [Hj|[Hge Hj]].
        -- by apply Hmax.
        -- destruct (j - length seen)%nat eqn:Ej; simpl in Hj; [|done].
           inversion Hj; subst.
           split; [by apply Float64_facts.le_total | lia].
Qed.

Lemma select_best_None cs : select_best cs = None -> cs = [].
Proof. destruct cs; [reflexivity | discriminate]. Qed.

(** The selected candidate is the winner. *)
Lemma select_best_is_winner cs i w :
  select_best cs = Some (i, w) -> is_winner cs i w.
Proof.
  destruct cs as [|c rest]; simpl; [done|]. intros H. inversion H as [E].
  unfold is_winner.
  destruct (Float64.is_nan (overall_score c)) eqn:Hn.
  - rewrite (best_from_nan rest 0%nat c 1%nat Hn) in E. inversion E; subst.
    split; reflexivity.
  - pose proof (best_from_leads rest [c] 0%nat c) as Hb. simpl in Hb.
    rewrite E in Hb. destruct Hb as (Hi & Hnum & Hmax).
    + split; [reflexivity|split; [exact Hn|]].
      intros [|j] c' Hj Hc'; simpl in Hj; [|done].
      inversion Hj; subst. split; [by apply Float64_facts.le_refl | lia].
    + split; [exact Hi | split; [exact Hnum | exact Hmax]].
Qed.

(** There is one winner only. *)
Lemma is_winner_unique cs i w i' w' :
  is_winner cs i w -> is_winner cs i' w' -> i' = i /\ w' = w.
Proof.
  intros [Hi H] [Hi' H'].
  assert (i' = i) as ->.
  { destruct cs as [|c0 rest]; [done|].
    destruct (Float64.is_nan (overall_score c0)); [congruence|].
    destruct H as [Hnum Hmax], H' as [Hnum' Hmax'].
    destruct (Nat.lt_trichotomy i i') as [Hlt|[->|Hlt]]; [|reflexivity|].
    - destruct (Hmax' i w Hi Hnum) as [_ Hs]. specialize (Hs Hlt).
      destruct (Hmax i' w' Hi' Hnum') as [Hle _].
      pose proof (Float64_facts.lt_le_trans _ _ _ Hs Hle) as Hbad.
      rewrite Float64_facts.lt_irrefl in Hbad. discriminate.
    - destruct (Hmax i' w' Hi' Hnum') as [_ Hs]. specialize (Hs Hlt).
      destruct (Hmax' i w Hi Hnum) as [Hle _].
      pose proof (Float64_facts.lt_le_trans _ _ _ Hs Hle) as Hbad.
      rewrite Float64_facts.lt_irrefl in Hbad. discriminate. }
  split; [reflexivity | congruence].
Qed.

(** *** What a call does to the world *)

Lemma route_hit_run cfg q u t ctx c cs sim w e :
  cache w !! fingerprint cfg q ctx = Some e ->
  route cfg q u t ctx (c :: cs) sim w
  = (Returned (mkRoutingDecision (model_used e) "cache_hit" Float64.one None false),
     mkWorld (tracker w) (<[fingerprint cfg q ctx := Cache.bump e]> (cache w))
       (scoring_calls w)).
Proof.
  intros H. unfold route, bind, cache_lookup, Cache.lookup, ret. rewrite H.
  reflexivity.
Qed.

Lemma route_miss_run cfg q u t ctx c cs sim w :
  cache w !! fingerprint cfg q ctx = None ->
  route cfg q u t ctx (c :: cs) sim w
  = (pick cfg t (score_candidates cfg t (extract cfg q) sim (c :: cs) w).1,
     mkWorld (tracker w) (cache w) (length (c :: cs) + scoring_calls w)).
Proof.
  intros H. unfold route, bind, cache_lookup, Cache.lookup, ret. rewrite H.
  destruct (score_candidates_run cfg t (extract cfg q) sim (c :: cs) w)
    as (scored & E & _).
  replace (mkWorld (tracker w) (cache w) (scoring_calls w)) with w
    by by destruct w.
  rewrite E. reflexivity.
Qed.

(** A decision depends on the world only through what [same_view]
    keeps. *)
Lemma route_same_view cfg q u t ctx cands sim w w' :
  same_view w w' ->
  (route cfg q u t ctx cands sim w).1 = (route cfg q u t ctx cands sim w').1.
Proof.
  intros [Htr Hc]. destruct cands as [|c cs]; [reflexivity|].
  specialize (Hc (fingerprint cfg q ctx)).
  destruct (cache w !! fingerprint cfg q ctx) as [e|] eqn:E,
           (cache w' !! fingerprint cfg q ctx) as [e'|] eqn:E';
    simpl in Hc; try discriminate.
  - rewrite (route_hit_run _ _ _ _ _ _ _ _ _ _ E),
            (route_hit_run _ _ _ _ _ _ _ _ _ _ E'). simpl. congruence.
  - rewrite (route_miss_run _ _ _ _ _ _ _ _ _ E),
            (route_miss_run _ _ _ _ _ _ _ _ _ E'). simpl.
    destruct (score_candidates_run cfg t (extract cfg q) sim (c :: cs) w)
      as (scored & Hs & Hs').
    rewrite Hs, (Hs' w') by done. reflexivity.
Qed.

(** A call leaves the tracker alone and changes, in the cache, at most
    the hit count of the entry it used. *)
Lemma route_keeps_view cfg q u t ctx cands sim w :
  same_view w (route cfg q u t ctx cands sim w).2.
Proof.
  destruct cands as [|c cs]; [done|].
  destruct (cache w !! fingerprint cfg q ctx) as [e|] eqn:E.
  - rewrite (route_hit_run _ _ _ _ _ _ _ _ _ _ E). split; [done|]. simpl.
    intros fp. destruct (decide (fingerprint cfg q ctx = fp)) as [<-|Hne].
    + by rewrite lookup_insert_eq, E.
    + by rewrite lookup_insert_ne.
  - rewrite (route_miss_run _ _ _ _ _ _ _ _ _ E). done.
Qed.

(** *** The scenario of the specification, run *)

(** The tier a [ChatRequest] gets when none is passed is the free tier
    of the engine. *)
Example default_tier_is_free (q u : string) :
  (fun r => user_tier r ≫= parse_tier)
    <$> match ChatRequest_init (Passed q) (Passed u) Omitted Omitted with
        | Valid r => Some r
        | ValidationError _ => None
        end
  = Some (Some Free).
Proof. reflexivity. Qed.

(** Free tier, modelA against modelB, nothing cached: modelB is selected
    after two scoring calls. *)
Example scenario_free_tier :
  let (out, w') :=
    route Scenario.cfg "Write a Python function to reverse a string" "u1" Free None
      ["modelA"; "modelB"]%string None Scenario.fresh in
  (exists d, out = Returned d /\ selected_model d = "modelB"%string
             /\ fallback d = false)
  /\ scoring_calls w' = 2%nat.
Proof. vm_compute. split; [eexists; split; [reflexivity | split; reflexivity] | reflexivity]. Qed.

(** Two candidates with equal scores: the first listed is selected, with
    a margin of zero. *)
Example scenario_tie :
  (route Scenario.cfg "q" "u1" Pro None ["modelC"; "modelD"]%string None
     Scenario.fresh).1
  = Returned (mkRoutingDecision "modelC" "highest_overall_score" Float64.zero None false)
  /\ (route Scenario.cfg "q" "u1" Pro None ["modelD"; "modelC"]%string None
        Scenario.fresh).1
  = Returned (mkRoutingDecision "modelD" "highest_overall_score" Float64.zero None false).
Proof. split; vm_compute; reflexivity. Qed.

(** No routing function can both fail on every call without candidates
    and return a decision on every call that finds its fingerprint in
    the cache: a call without candidates may find it there. *)
Remark empty_candidates_versus_cache_hit (r : list string -> World -> Outcome) :
  (forall w, r [] w = Raised NoEligibleModelsError) ->
  ~ (forall cands w e,
       cache w !! fingerprint Scenario.cfg "hello" None = Some e ->
       exists d, r cands w = Returned d).
Proof.
  intros Hempty Hhit.
  destruct (Hhit [] Scenario.cached (mkCacheEntry "hello|" "R" "modelA" 0 0))
    as [d Hd]; [reflexivity|].
  rewrite Hempty in Hd. discriminate.
Qed.

(** *** Properties of [route] *)

(** C1.  A call of [route] with the empty candidate list raises
    [NoEligibleModelsError]: it returns no decision, under every
    configuration and in every state of tracker and cache (a cached
    answer or a fallback model is not substituted), and it leaves the
    world as it was. *)
Theorem route_empty_candidates_fatal
  (cfg : Config) (query user_id : string) (t : Tier) (context : option string)
  (similar : option (list SimilarQuery)) (w : World) :
  route cfg query user_id t context [] similar w = (Raised NoEligibleModelsError, w)
  /\ forall d, (route cfg query user_id t context [] similar w).1 <> Returned d.
Proof. split; [reflexivity | intros d; discriminate]. Qed.

(** C2.  [route] is deterministic.  Calling it a second time with the
    same arguments, on the world the first call left behind, gives the
    same outcome (the same selected model and the same confidence); more
    generally the outcome is the same in any two worlds with the same
    tracker and the same cached models.  On a cache miss with at least
    one candidate the outcome is fixed by the scored candidates alone:
    when every quality score is below the threshold it is the fallback
    decision of the tier; otherwise it is the decision for the winner,
    the one candidate that is first, in declaration order, among those
    of greatest overall score (no candidate scores more and every
    candidate listed before it scores strictly less), with the margin
    over the best of the others as confidence; the winner's place among
    the scored candidates is its place in the list passed, and there is
    no second winner. *)
Theorem route_deterministic
  (cfg : Config) (query user_id : string) (t : Tier) (context : option string)
  (candidates : list string) (similar : option (list SimilarQuery)) (w : World) :
  let run := route cfg query user_id t context candidates similar in
  let scored :=
    (score_candidates cfg t (extract cfg query) similar candidates w).1 in
  (run (run w).2).1 = (run w).1
  /\ (forall w', same_view w w' -> (run w').1 = (run w).1)
  /\ (cache w !! fingerprint cfg query context = None -> candidates <> [] ->
        if all_below (min_quality cfg) scored then
          (run w).1
          = Returned (mkRoutingDecision (fallback_model cfg t) "low_confidence_fallback"
                        (clamp01 (fallback_confidence cfg)) None true)
        else
          exists i win,
            is_winner scored i win
            /\ (forall i' win', is_winner scored i' win' -> i' = i /\ win' = win)
            /\ candidates !! i = Some (model_name win)
            /\ (run w).1
               = Returned (mkRoutingDecision (model_name win) (explain cfg t win)
                             (margin win (delete i scored)) None false)).
Proof.
  intros run scored. split; [|split].
  - symmetry. apply route_same_view, route_keeps_view.
  - intros w' Hv. symmetry. by apply route_same_view.
  - intros Hmiss Hne. subst run.
    destruct candidates as [|c cs]; [done|].
    rewrite (route_miss_run _ _ _ _ _ _ _ _ _ Hmiss). simpl. fold scored.
    unfold pick.
    destruct (all_below (min_quality cfg) scored).
    + by rewrite decision_valid by apply clamp01_in_unit_interval.
    + pose proof (score_candidates_names cfg t (extract cfg query) similar (c :: cs) w)
        as Hnames. fold scored in Hnames.
      destruct (select_best scored) as [[i win]|] eqn:Es.
      * pose proof (select_best_is_winner _ _ _ Es) as Hwin.
        exists i, win. split; [exact Hwin|]. split; [|split].
        -- intros i' win' H'. by eapply is_winner_unique.
        -- destruct Hwin as [Hi _].
           rewrite <- Hnames, list_lookup_fmap, Hi. reflexivity.
        -- by rewrite decision_valid by apply margin_in_unit_interval.
      * apply select_best_None in Es. rewrite Es in Hnames. discriminate.
Qed.


(** They differ on a call without candidates whose fingerprint is
    cached: tested first, the empty list raises; looked for first, the
    cached model is returned. *)
Remark routes_differ_without_candidates :
  (route Scenario.cfg "hello" "u1" Free None [] None Scenario.cached).1
  = Raised NoEligibleModelsError
  /\ (route_cache_first Scenario.cfg "hello" "u1" Free None [] None Scenario.cached).1
     = Returned (mkRoutingDecision "modelA" "cache_hit" Float64.one None false).
Proof. split; reflexivity. Qed.



End Engine_facts.

(* ===================================================================== *)
(** * The constructors of the schemas, field by field *)
(* ===================================================================== *)

Module constructors_facts.

Import schemas.

(** Every combination of passed and omitted arguments, computed. *)
Ltac by_kwargs :=
  repeat match goal with a : kwarg _ |- _ => destruct a end;
  cbn;
  (split;
    [ split;
      [ intros [? H]; first [discriminate H | reflexivity]
      | intros H; first [discriminate H | eexists; reflexivity] ]
    | split;
      [ reflexivity
      | intros ? H;
        first [discriminate H | inversion H; subst; cbn; repeat split; reflexivity] ] ]).

(** X1.  ChatRequest: the call succeeds exactly when [query] and [user_id]
    are passed; otherwise it reports each of the two that is missing, in
    that order; and the request it returns holds every argument as
    passed, [user_tier] included (an explicit [None], or a string that
    names no tier, is kept; the default "free" is for the omitted
    argument only). *)
Theorem ChatRequest_init_spec
  (q u : kwarg string) (c t : kwarg (option string)) :
  ((exists r, ChatRequest_init q u c t = Valid r) <-> passed q && passed u = true)
  /\ errors_of (ChatRequest_init q u c t)
     = missing_fields (if_omitted "query" q ++ if_omitted "user_id" u)
  /\ (forall r, ChatRequest_init q u c t = Valid r ->
        q = Passed (query r) /\ u = Passed (user_id r)
        /\ context r = value_or None c
        /\ user_tier r = value_or (Some "free"%string) t).
Proof. by_kwargs. Qed.

(** X2.  ChatResponse: [response], [model_used] and [latency_ms] are
    required, missing ones are reported in that order, and
    [routing_metadata] is [None] unless passed; the latency is kept
    whatever float it is. *)
Theorem ChatResponse_init_spec
  (r m : kwarg string) (l : kwarg float) (md : kwarg (option Dict)) :
  ((exists x, ChatResponse.init r m l md = Valid x)
     <-> passed r && passed m && passed l = true)
  /\ errors_of (ChatResponse.init r m l md)
     = missing_fields (if_omitted "response" r ++ if_omitted "model_used" m
                       ++ if_omitted "latency_ms" l)
  /\ (forall x, ChatResponse.init r m l md = Valid x ->
        r = Passed (ChatResponse.response x)
        /\ m = Passed (ChatResponse.model_used x)
        /\ l = Passed (ChatResponse.latency_ms x)
        /\ ChatResponse.routing_metadata x = value_or None md).
Proof. by_kwargs. Qed.

(** X3.  QueryFeatures: the four counts and the four flags are required,
    missing ones are reported in declaration order, and [embedding_id]
    is [None] unless passed. *)
Theorem QueryFeatures_init_spec
  (tc ql wc sc : kwarg Z) (c a v b : kwarg bool) (emb : kwarg (option string)) :
  ((exists qf, QueryFeatures_init tc ql wc sc c a v b emb = Valid qf)
     <-> passed tc && passed ql && passed wc && passed sc
         && passed c && passed a && passed v && passed b = true)
  /\ errors_of (QueryFeatures_init tc ql wc sc c a v b emb)
     = missing_fields
         (if_omitted "token_count" tc ++ if_omitted "query_length" ql
          ++ if_omitted "word_count" wc ++ if_omitted "sentence_count" sc
          ++ if_omitted "is_coding" c ++ if_omitted "is_analytical" a
          ++ if_omitted "is_creative" v ++ if_omitted "has_code_block" b)
  /\ (forall qf, QueryFeatures_init tc ql wc sc c a v b emb = Valid qf ->
        tc = Passed (token_count qf) /\ ql = Passed (query_length qf)
        /\ wc = Passed (word_count qf) /\ sc = Passed (sentence_count qf)
        /\ c = Passed (is_coding qf) /\ a = Passed (is_analytical qf)
        /\ v = Passed (is_creative qf) /\ b = Passed (has_code_block qf)
        /\ embedding_id qf = value_or None emb).
Proof. by_kwargs. Qed.

(** X6.  RoutingLog: seven fields are required and missing ones are reported
    in declaration order; [id] is [None] unless passed; and a log built
    without [timestamp] carries the time of its own construction, the
    factory being run at each call. *)
Theorem RoutingLog_init_spec (utcnow : datetime)
  (i : kwarg (option Z)) (q u : kwarg string) (f : kwarg Dict) (m : kwarg string)
  (l c : kwarg float) (ok : kwarg bool) (ts : kwarg datetime) :
  ((exists x, RoutingLog.init utcnow i q u f m l c ok ts = Valid x)
     <-> passed q && passed u && passed f && passed m
         && passed l && passed c && passed ok = true)
  /\ errors_of (RoutingLog.init utcnow i q u f m l c ok ts)
     = missing_fields
         (if_omitted "query" q ++ if_omitted "user_id" u ++ if_omitted "features" f
          ++ if_omitted "model_used" m ++ if_omitted "latency_ms" l
          ++ if_omitted "cost_estimate" c ++ if_omitted "success" ok)
  /\ (forall x, RoutingLog.init utcnow i q u f m l c ok ts = Valid x ->
        RoutingLog.id x = value_or None i
        /\ q = Passed (RoutingLog.query x) /\ u = Passed (RoutingLog.user_id x)
        /\ f = Passed (RoutingLog.features x) /\ m = Passed (RoutingLog.model_used x)
        /\ l = Passed (RoutingLog.latency_ms x)
        /\ c = Passed (RoutingLog.cost_estimate x)
        /\ ok = Passed (RoutingLog.success x)
        /\ RoutingLog.timestamp x = value_or utcnow ts).
Proof. by_kwargs. Qed.

(** X9.  ComplexityPrediction: the three fields are required and nothing
    else is checked: [complexity] and [domain] take any string, not only
    the values the comments list, and [confidence] any float, in [0,1]
    or not. *)
Theorem ComplexityPrediction_init_spec (cx d : kwarg string) (cf : kwarg float) :
  ((exists x, ComplexityPrediction.init cx d cf = Valid x)
     <-> passed cx && passed d && passed cf = true)
  /\ errors_of (ComplexityPrediction.init cx d cf)
     = missing_fields (if_omitted "complexity" cx ++ if_omitted "domain" d
                       ++ if_omitted "confidence" cf)
  /\ (forall x, ComplexityPrediction.init cx d cf = Valid x ->
        cx = Passed (ComplexityPrediction.complexity x)
        /\ d = Passed (ComplexityPrediction.domain x)
        /\ cf = Passed (ComplexityPrediction.confidence x)).
Proof. by_kwargs. Qed.

(** X10.  SimilarQuery: the five fields are required, missing ones are
    reported in declaration order, and the three floats are kept as
    passed, no range being declared for any of them. *)
Theorem SimilarQuery_init_spec (q m : kwarg string) (sr al ss : kwarg float) :
  ((exists x, SimilarQuery_init q m sr al ss = Valid x)
     <-> passed q && passed m && passed sr && passed al && passed ss = true)
  /\ errors_of (SimilarQuery_init q m sr al ss)
     = missing_fields (if_omitted "query" q ++ if_omitted "model_used" m
                       ++ if_omitted "success_rate" sr
                       ++ if_omitted "avg_latency_ms" al
                       ++ if_omitted "similarity_score" ss)
  /\ (forall x, SimilarQuery_init q m sr al ss = Valid x ->
        q = Passed (sq_query x) /\ m = Passed (sq_model_used x)
        /\ sr = Passed (success_rate x) /\ al = Passed (avg_latency_ms x)
        /\ ss = Passed (similarity_score x)).
Proof. by_kwargs. Qed.

(** X11.  ModelCandidate: the name and the four scores, [overall_score]
    included, are required and missing ones are reported in declaration
    order; [metadata] is [None] unless passed. *)
Theorem ModelCandidate_init_spec
  (n : kwarg string) (q c l o : kwarg float) (md : kwarg (option Dict)) :
  ((exists x, ModelCandidate_init n q c l o md = Valid x)
     <-> passed n && passed q && passed c && passed l && passed o = true)
  /\ errors_of (ModelCandidate_init n q c l o md)
     = missing_fields (if_omitted "model_name" n ++ if_omitted "quality_score" q
                       ++ if_omitted "cost_score" c ++ if_omitted "latency_score" l
                       ++ if_omitted "overall_score" o)
  /\ (forall x, ModelCandidate_init n q c l o md = Valid x ->
        n = Passed (model_name x) /\ q = Passed (quality_score x)
        /\ c = Passed (cost_score x) /\ l = Passed (latency_score x)
        /\ o = Passed (overall_score x) /\ metadata x = value_or None md).
Proof. by_kwargs. Qed.

(** X12.  CacheEntry: the hash, the response, the model and the timestamp are
    required and missing ones are reported in declaration order; a hit
    count that is passed is kept as it is, negative or not. *)
Theorem CacheEntry_init_spec
  (h r m : kwarg string) (ts : kwarg datetime) (n : kwarg Z) :
  ((exists x, CacheEntry_init h r m ts n = Valid x)
     <-> passed h && passed r && passed m && passed ts = true)
  /\ errors_of (CacheEntry_init h r m ts n)
     = missing_fields (if_omitted "query_hash" h ++ if_omitted "response" r
                       ++ if_omitted "model_used" m ++ if_omitted "timestamp" ts)
  /\ (forall x, CacheEntry_init h r m ts n = Valid x ->
        h = Passed (query_hash x) /\ r = Passed (response x)
        /\ m = Passed (model_used x) /\ ts = Passed (timestamp x)
        /\ hit_count x = value_or 0 n).
Proof. by_kwargs. Qed.

(** X13.  HealthCheck: the four fields are required, no default stands in
    for any of them, and missing ones are reported in declaration
    order. *)
Theorem HealthCheck_init_spec
  (st v : kwarg string) (ts : kwarg datetime) (sv : kwarg (list (string * string))) :
  ((exists x, HealthCheck.init st v ts sv = Valid x)
     <-> passed st && passed v && passed ts && passed sv = true)
  /\ errors_of (HealthCheck.init st v ts sv)
     = missing_fields (if_omitted "status" st ++ if_omitted "version" v
                       ++ if_omitted "timestamp" ts ++ if_omitted "services" sv)
  /\ (forall x, HealthCheck.init st v ts sv = Valid x ->
        st = Passed (HealthCheck.status x) /\ v = Passed (HealthCheck.version x)
        /\ ts = Passed (HealthCheck.timestamp x)
        /\ sv = Passed (HealthCheck.services x)).
Proof. by_kwargs. Qed.

(** X14.  MetricsResponse: the five fields are required and missing ones are
    reported in declaration order; the request count and the rates are
    kept as passed, no sign or range being declared. *)
Theorem MetricsResponse_init_spec
  (n : kwarg Z) (hr al : kwarg float) (md : kwarg (list (string * Z)))
  (er : kwarg float) :
  ((exists x, MetricsResponse.init n hr al md er = Valid x)
     <-> passed n && passed hr && passed al && passed md && passed er = true)
  /\ errors_of (MetricsResponse.init n hr al md er)
     = missing_fields (if_omitted "total_requests" n ++ if_omitted "cache_hit_rate" hr
                       ++ if_omitted "avg_latency_ms" al
                       ++ if_omitted "model_distribution" md
                       ++ if_omitted "error_rate" er)
  /\ (forall x, MetricsResponse.init n hr al md er = Valid x ->
        n = Passed (MetricsResponse.total_requests x)
        /\ hr = Passed (MetricsResponse.cache_hit_rate x)
        /\ al = Passed (MetricsResponse.avg_latency_ms x)
        /\ md = Passed (MetricsResponse.model_distribution x)
        /\ er = Passed (MetricsResponse.error_rate x)).
Proof. by_kwargs. Qed.

(** *** The two models with bounds *)

(** What the bounds check of [rating] reports, value by value. *)
Lemma rating_validator_cases (x : Z) :
  number_size_validator FeedbackRequest_rating x
  = if x <? 1 then Some greater_than_equal
    else if 5 <? x then Some less_than_equal else None.
Proof.
  unfold number_size_validator, FeedbackRequest_rating, py_le, PyOrd_int; simpl.
  destruct (Z.leb_spec 1 x), (Z.leb_spec x 5), (Z.ltb_spec x 1), (Z.ltb_spec 5 x);
    try lia; reflexivity.
Qed.

(** X7.  FeedbackRequest: the call succeeds exactly when [request_id] is
    passed and [rating] is passed with a value in 1..5.  Otherwise every
    offending field is reported, [request_id] first: a missing field as
    missing, a rating below 1 as not greater than or equal, a rating
    above 5 as not less than or equal.  [comment] is [None] unless
    passed. *)
Theorem FeedbackRequest_init_spec
  (rid : kwarg string) (r : kwarg Z) (c : kwarg (option string)) :
  ((exists fr, FeedbackRequest_init rid r c = Valid fr)
     <-> passed rid = true /\ exists x, r = Passed x /\ 1 <= x <= 5)
  /\ errors_of (FeedbackRequest_init rid r c)
     = missing_fields (if_omitted "request_id" rid)
       ++ match r with
          | Omitted => [mkError "rating" missing]
          | Passed x =>
              if x <? 1 then [mkError "rating" greater_than_equal]
              else if 5 <? x then [mkError "rating" less_than_equal]
              else []
          end
  /\ (forall fr, FeedbackRequest_init rid r c = Valid fr ->
        rid = Passed (request_id fr) /\ r = Passed (rating fr)
        /\ comment fr = value_or None c).
Proof.
  unfold FeedbackRequest_init, validate_number.
  destruct r as [|x]; [|rewrite rating_validator_cases].
  - destruct rid, c; cbn; (split; [split|split]);
      try reflexivity; try (intros [? H]; discriminate H);
      try (intros ? H; discriminate H);
      intros [_ (x & Hx & _)]; discriminate Hx.
  - destruct (Z.ltb_spec x 1) as [H1|H1]; [|destruct (Z.ltb_spec 5 x) as [H5|H5]];
      destruct rid, c; cbn; (split; [split|split]);
      try reflexivity; try (intros [? H]; discriminate H);
      try (intros ? H; discriminate H);
      try (intros [Hp (y & Hy & Hr)]; first [discriminate Hp | inversion Hy; lia]);
      try (intros _; eexists; reflexivity);
      try (intros H; split; [reflexivity | exists x; split; [reflexivity | lia]]);
      try (intros ? H; inversion H; subst; cbn; repeat split; reflexivity).
Qed.

(** X8.  Validating a request again changes nothing: the fields of any
    request a call returned, passed back to the constructor, give that
    same request. *)
Theorem FeedbackRequest_revalidates
  (rid : kwarg string) (r : kwarg Z) (c : kwarg (option string)) (fr : FeedbackRequest)
  (H : FeedbackRequest_init rid r c = Valid fr) :
  FeedbackRequest_init (Passed (request_id fr)) (Passed (rating fr))
    (Passed (comment fr)) = Valid fr.
Proof.
  unfold FeedbackRequest_init in H.
  apply schemas_facts.ap_valid_inv in H as (g & cm & H & _ & ->).
  apply schemas_facts.ap_valid_inv in H as (g1 & x & H & Hx & ->).
  apply schemas_facts.ap_valid_inv in H as (g2 & i & H & _ & ->).
  inversion H; subst; simpl.
  apply schemas_facts.validate_number_valid_inv in Hx as [[_ Hx]|[_ Hx]];
    [|discriminate].
  unfold FeedbackRequest_init, validate_number. rewrite Hx. reflexivity.
Qed.

Lemma FeedbackRequest_revalidates_witness :
  FeedbackRequest_init (Passed "req-1"%string) (Passed 4) (Passed None)
  = Valid (mkFeedbackRequest "req-1" 4 None).
Proof.
  apply (FeedbackRequest_revalidates (Passed "req-1"%string) (Passed 4) Omitted
           (mkFeedbackRequest "req-1" 4 None)).
  reflexivity.
Defined.

(** X4.  RoutingDecision: the call succeeds exactly when [selected_model] and
    [reason] are passed and [confidence] is passed with
    [0.0 <= confidence <= 1.0]; the fields at fault are reported in
    declaration order; and a decision built without them has
    [alternatives = None] and [fallback = False]. *)
Theorem RoutingDecision_init_spec
  (sm why : kwarg string) (conf : kwarg float)
  (alt : kwarg (option (list Dict))) (fb : kwarg bool) :
  let conf_ok :=
    match conf with
    | Passed x => Float64.in_unit_interval x
    | Omitted => false
    end in
  ((exists d, RoutingDecision_init sm why conf alt fb = Valid d)
     <-> passed sm && passed why && conf_ok = true)
  /\ loc <$> errors_of (RoutingDecision_init sm why conf alt fb)
     = if_omitted "selected_model" sm ++ if_omitted "reason" why
       ++ (if conf_ok then [] else ["confidence"%string])
  /\ (forall d, RoutingDecision_init sm why conf alt fb = Valid d ->
        sm = Passed (selected_model d) /\ why = Passed (reason d)
        /\ conf = Passed (confidence d)
        /\ alternatives d = value_or None alt
        /\ fallback d = value_or false fb).
Proof.
  intros conf_ok. subst conf_ok.
  unfold RoutingDecision_init, validate_number.
  destruct conf as [|x].
  - by_kwargs.
  - destruct (number_size_validator RoutingDecision_confidence x) as [e|] eqn:E.
    + assert (Float64.in_unit_interval x = false) as ->.
      { destruct (Float64.in_unit_interval x) eqn:Hx; [|reflexivity].
        apply schemas_facts.confidence_in_range in Hx. congruence. }
      by_kwargs.
    + apply schemas_facts.confidence_in_range in E as ->.
      by_kwargs.
Qed.

(** X5.  Validating a decision again changes nothing: the fields of any
    decision a call returned, passed back to the constructor, give that
    same decision. *)
Theorem RoutingDecision_revalidates
  (sm why : kwarg string) (conf : kwarg float)
  (alt : kwarg (option (list Dict))) (fb : kwarg bool) (d : RoutingDecision)
  (H : RoutingDecision_init sm why conf alt fb = Valid d) :
  RoutingDecision_init (Passed (selected_model d)) (Passed (reason d))
    (Passed (confidence d)) (Passed (alternatives d)) (Passed (fallback d))
  = Valid d.
Proof.
  unfold RoutingDecision_init in H.
  apply schemas_facts.ap_valid_inv in H as (g1 & b & H & _ & ->).
  apply schemas_facts.ap_valid_inv in H as (g2 & a & H & _ & ->).
  apply schemas_facts.ap_valid_inv in H as (g3 & c & H & Hc & ->).
  apply schemas_facts.ap_valid_inv in H as (g4 & w & H & _ & ->).
  apply schemas_facts.ap_valid_inv in H as (g5 & m & H & _ & ->).
  inversion H; subst; simpl.
  apply schemas_facts.validate_number_valid_inv in Hc as [[_ Hc]|[_ Hc]];
    [|discriminate].
  unfold RoutingDecision_init, validate_number. rewrite Hc. reflexivity.
Qed.

Lemma RoutingDecision_revalidates_witness :
  RoutingDecision_init (Passed "modelA"%string) (Passed "cache_hit"%string)
    (Passed Float64.half) (Passed None) (Passed false)
  = Valid (mkRoutingDecision "modelA" "cache_hit" Float64.half None false).
Proof.
  apply (RoutingDecision_revalidates (Passed "modelA"%string)
           (Passed "cache_hit"%string) (Passed Float64.half) Omitted Omitted
           (mkRoutingDecision "modelA" "cache_hit" Float64.half None false)).
  reflexivity.
Defined.

End constructors_facts.
